(** * Food delivery dashboard: the ingestion, cleaning, filtering and
      summary pipeline of [dashboard.py]

    The script is a Streamlit page over a pandas table.  This development
    embeds the part of it that decides something: [load_data] (source
    resolution, the fallback "minimal clean"), the required-column check,
    the sidebar filter that builds [dff], and the KPI / correlation
    computations.

    Modelling conventions.
    - A pandas [Series] is a typed column: a float column ([NumCol]) or an
      object column of text ([ObjCol]); [None] is NaN.  These are the two
      dtypes [pd.read_csv] produces for the columns the script touches.
    - Floats are modelled by exact rationals ([Q]); comparisons and the
      statistics are those of the real numbers the floats stand for.  Only
      finite floats are covered: the infinities that pandas reads from
      tokens such as "inf" have no counterpart here.
    - Text is modelled by [string] (ASCII): [strip] removes ASCII white
      space and [lower] maps [A-Z] to [a-z].
    - A [DataFrame] is the ordered list of its labelled columns; the row
      index is positional.
    - Streamlit calls are events written to a log; [st.stop()] and an
      uncaught Python exception end the run. *)

From Stdlib Require Import String Ascii List Bool Arith ZArith QArith Qround Lia.
Import ListNotations.

Local Close Scope Q_scope.
Local Open Scope string_scope.
Local Open Scope list_scope.
Local Open Scope nat_scope.

(** ** Python strings *)

Module Py.

(** [str.isspace] on one ASCII character: TAB, LF, VT, FF, CR, FS, GS, RS,
    US and the space. *)
Definition isspace (c : ascii) : bool :=
  let n := nat_of_ascii c in
  ((9 <=? n) && (n <=? 13)) || ((28 <=? n) && (n <=? 32)).

Definition lower_char (c : ascii) : ascii :=
  let n := nat_of_ascii c in
  if (65 <=? n) && (n <=? 90) then ascii_of_nat (n + 32) else c.

Fixpoint lower (s : string) : string :=
  match s with
  | EmptyString => EmptyString
  | String c r => String (lower_char c) (lower r)
  end.

Fixpoint lstrip (s : string) : string :=
  match s with
  | EmptyString => EmptyString
  | String c r => if isspace c then lstrip r else s
  end.

Fixpoint rstrip (s : string) : string :=
  match s with
  | EmptyString => EmptyString
  | String c r =>
      match rstrip r with
      | EmptyString => if isspace c then EmptyString else String c EmptyString
      | r' => String c r'
      end
  end.

Definition strip (s : string) : string := lstrip (rstrip s).

(** [x in xs] for strings. *)
Definition mem (x : string) (xs : list string) : bool :=
  existsb (String.eqb x) xs.

(** [d.get(k)] on a dict literal, kept as its list of items. *)
Fixpoint dict_get {V : Type} (k : string) (d : list (string * V)) : option V :=
  match d with
  | [] => None
  | (k', v) :: r => if String.eqb k k' then Some v else dict_get k r
  end.

(** [sorted(xs)]: a stable sort.  Insertion from the right end keeps equal
    keys in their original order. *)
Section Sorted.
Context {A : Type} (leb : A -> A -> bool).

Fixpoint insert (x : A) (l : list A) : list A :=
    match l with
    | [] => [x]
    | y :: r => if leb x y then x :: l else y :: insert x r
    end.

Fixpoint sorted (l : list A) : list A :=
    match l with
    | [] => []
    | x :: r => insert x (sorted r)
    end.
End Sorted.

End Py.

(** ** The pandas operations the script calls *)

Module Pd.

Inductive Series : Type :=
| NumCol (xs : list (option Q))
| ObjCol (xs : list (option string)).

Definition DataFrame : Type := list (string * Series).

Definition columns (df : DataFrame) : list string := map fst df.

Definition size (s : Series) : nat :=
  match s with
  | NumCol xs => length xs
  | ObjCol xs => length xs
  end.

(** [len(df)]: the length of the (positional) index. *)
Definition len (df : DataFrame) : nat :=
  match df with
  | [] => 0
  | (_, s) :: _ => size s
  end.

(** Every column has as many cells as the index has rows. *)
Definition aligned (df : DataFrame) : Prop :=
  Forall (fun c => size (snd c) = len df) df.

(** [df[c]] for a label that occurs once. *)
Fixpoint get (c : string) (df : DataFrame) : option Series :=
  match df with
  | [] => None
  | (n, s) :: r => if String.eqb n c then Some s else get c r
  end.

(** Number of columns that carry label [c]. *)
Definition count_label (c : string) (df : DataFrame) : nat :=
  length (filter (String.eqb c) (columns df)).

(** [df[c] = f(df[c])]. *)
Definition assign (c : string) (f : Series -> Series) (df : DataFrame) : DataFrame :=
  map (fun ns => if String.eqb (fst ns) c then (fst ns, f (snd ns)) else ns) df.

(** [df.columns = [g(c) for c in df.columns]]. *)
Definition rename (g : string -> string) (df : DataFrame) : DataFrame :=
  map (fun ns => (g (fst ns), snd ns)) df.

(** Boolean indexing [xs[mask]]. *)
Fixpoint compress {A : Type} (mask : list bool) (xs : list A) : list A :=
  match mask, xs with
  | b :: m, x :: r => if b then x :: compress m r else compress m r
  | _, _ => []
  end.

Definition take (mask : list bool) (s : Series) : Series :=
  match s with
  | NumCol xs => NumCol (compress mask xs)
  | ObjCol xs => ObjCol (compress mask xs)
  end.

(** [df[mask]]: the rows where the mask holds, in order, for every column. *)
Definition loc (mask : list bool) (df : DataFrame) : DataFrame :=
  map (fun ns => (fst ns, take mask (snd ns))) df.

Definition is_none {A : Type} (x : option A) : bool :=
  match x with
  | None => true
  | Some _ => false
  end.

Definition isna (s : Series) : list bool :=
  match s with
  | NumCol xs => map is_none xs
  | ObjCol xs => map is_none xs
  end.

(** [s.isna().sum()]. *)
Definition na_count (s : Series) : nat := length (filter (fun b => b) (isna s)).

Fixpoint dropna {A : Type} (xs : list (option A)) : list A :=
  match xs with
  | [] => []
  | Some x :: r => x :: dropna r
  | None :: r => dropna r
  end.

(** [xs.fillna(v)] with a scalar; a NaN scalar ([None]) fills nothing. *)
Definition fillna {A : Type} (v : option A) (xs : list (option A)) : list (option A) :=
  map (fun x => match x with Some _ => x | None => v end) xs.

(** [xs.fillna(ys)] with a series of the same index. *)
Fixpoint fillna_from {A : Type} (xs ys : list (option A)) : list (option A) :=
  match xs, ys with
  | Some x :: r, _ :: r' => Some x :: fillna_from r r'
  | None :: r, y :: r' => y :: fillna_from r r'
  | x :: r, [] => x :: fillna_from r []
  | [], _ => []
  end.

Section Values.
Context {A : Type} (eqb leb : A -> A -> bool).

Definition isin (sel : list A) (x : option A) : bool :=
    match x with
    | None => false
    | Some a => existsb (eqb a) sel
    end.

  (** [unique()]: values in order of first appearance. *)
Fixpoint unique_from (seen : list A) (xs : list A) : list A :=
    match xs with
    | [] => []
    | x :: r =>
        if existsb (eqb x) seen then unique_from seen r
        else x :: unique_from (x :: seen) r
    end.

Definition unique (xs : list A) : list A := unique_from [] xs.

Definition occurrences (x : A) (xs : list A) : nat :=
    length (filter (eqb x) xs).

  (** [mode(dropna=True)]: the most frequent values, sorted. *)
Definition mode (xs : list (option A)) : list A :=
    let vs := dropna xs in
    let top := fold_right Nat.max 0 (map (fun v => occurrences v vs) vs) in
    Py.sorted leb (filter (fun v => occurrences v vs =? top) (unique vs)).
End Values.

(** Numeric reductions; NaN cells are skipped, an empty reduction is NaN. *)
Definition sum (vs : list Q) : Q := fold_right Qplus 0%Q vs.

Definition qlen (vs : list Q) : Q := inject_Z (Z.of_nat (length vs)).

Definition mean (xs : list (option Q)) : option Q :=
  match dropna xs with
  | [] => None
  | vs => Some (sum vs / qlen vs)%Q
  end.

Definition qmin (a b : Q) : Q := if Qle_bool a b then a else b.
Definition qmax (a b : Q) : Q := if Qle_bool a b then b else a.

Definition min (xs : list (option Q)) : option Q :=
  match dropna xs with
  | [] => None
  | v :: vs => Some (fold_right qmin v vs)
  end.

Definition max (xs : list (option Q)) : option Q :=
  match dropna xs with
  | [] => None
  | v :: vs => Some (fold_right qmax v vs)
  end.

(** [quantile(q)], linear interpolation between the two order statistics
    around position [q * (n - 1)]. *)
Definition quantile (q : Q) (xs : list (option Q)) : option Q :=
  match Py.sorted Qle_bool (dropna xs) with
  | [] => None
  | (v0 :: _) as vs =>
      let pos := (q * (qlen vs - 1))%Q in
      let j := Z.to_nat (Qfloor pos) in
      let g := (pos - inject_Z (Qfloor pos))%Q in
      let lo := nth j vs v0 in
      let hi := nth (Nat.min (j + 1) (length vs - 1)) vs v0 in
      Some (lo + (hi - lo) * g)%Q
  end.

Definition median (xs : list (option Q)) : option Q :=
  match Py.sorted Qle_bool (dropna xs) with
  | [] => None
  | (v0 :: _) as vs =>
      let n := length vs in
      if Nat.odd n then Some (nth (n / 2) vs v0)
      else Some ((nth (n / 2 - 1) vs v0 + nth (n / 2) vs v0) / 2)%Q
  end.

(** [between(lo, hi)], inclusive on both ends; a NaN on either side
    compares false. *)
Definition between (lo hi : option Q) (x : option Q) : bool :=
  match lo, hi, x with
  | Some l, Some h, Some v => Qle_bool l v && Qle_bool v h
  | _, _, _ => false
  end.

(** One entry of [DataFrame.corr()] (Pearson, [min_periods = 1]) over the
    rows where both cells are present.  The value covariance / sqrt(ssx *
    ssy) is kept as the pair (covariance, ssx * ssy); NaN is [None]. *)
Record pearson : Type := { cov : Q; ss_prod : Q }.

Fixpoint pairs (xs ys : list (option Q)) : list (Q * Q) :=
  match xs, ys with
  | Some x :: r, Some y :: r' => (x, y) :: pairs r r'
  | _ :: r, _ :: r' => pairs r r'
  | _, _ => []
  end.

Definition corr_entry (xs ys : list (option Q)) : option pearson :=
  match pairs xs ys with
  | [] => None
  | ps =>
      let vx := map fst ps in
      let vy := map snd ps in
      let mx := (sum vx / qlen vx)%Q in
      let my := (sum vy / qlen vy)%Q in
      let ssx := sum (map (fun x => (x - mx) * (x - mx))%Q vx) in
      let ssy := sum (map (fun y => (y - my) * (y - my))%Q vy) in
      let cxy := sum (map (fun p => (fst p - mx) * (snd p - my))%Q ps) in
      if Qeq_bool (ssx * ssy) 0%Q then None
      else Some {| cov := cxy; ss_prod := (ssx * ssy)%Q |}
  end.

End Pd.

(** ** Running the script: Streamlit events, [st.stop()] and exceptions *)

Module St.

Inductive exn : Type :=
| KeyError (label : string)
    (* [df[c]] on a label that is not a column *)
| DuplicateLabel (label : string)
    (* a Series method called on [df[c]] when [c] labels several columns *)
| NotNumeric (label : string).
    (* a numeric method called on a text column *)

(** How pandas code ends: with a value, or with an exception. *)
Inductive result (A : Type) : Type :=
| Done (a : A)
| Raised (e : exn).
Arguments Done {A} a.
Arguments Raised {A} e.

(** How (a part of) the script ends: it goes on with a value, it is halted
    by [st.stop()], or an exception is left uncaught. *)
Inductive ending (A : Type) : Type :=
| Returned (a : A)
| Stopped
| Uncaught (e : exn).
Arguments Returned {A} a.
Arguments Stopped {A}.
Arguments Uncaught {A} e.

Inductive message : Type :=
| PutSourceFile
    (* "Put 'Food_Delivery_Times_CLEAN.csv' or 'Food_Delivery_Times.csv'
       in the same folder." *)
| RequiredFieldsMissing (fields : list string)
| NoDataAfterFilter.

Inductive event : Type :=
| Error (m : message)
| Warning (m : message)
| SidebarSuccess (rows : nat)
| Metric (label : string) (value : option Q)
| MetricCount (rows : nat)
| Heatmap (corr : list (list (option Pd.pearson))).

(** A run: the events shown so far and how the run ended. *)
Definition script (A : Type) : Type := list event * ending A.

Definition ret {A : Type} (a : A) : script A := ([], Returned a).

Definition bind {A B : Type} (m : script A) (k : A -> script B) : script B :=
  match snd m with
  | Returned a => (fst m ++ fst (k a), snd (k a))
  | Stopped => (fst m, Stopped)
  | Uncaught e => (fst m, Uncaught e)
  end.

Definition emit (e : event) : script unit := ([e], Returned tt).
Definition stop {A : Type} : script A := ([], Stopped).

(** Pandas code run by the script: it shows nothing. *)
Definition lift {A : Type} (r : result A) : script A :=
  ([], match r with
       | Done a => Returned a
       | Raised e => Uncaught e
       end).

(** Sequencing of pandas code. *)
Definition and_then {A B : Type} (r : result A) (k : A -> result B) : result B :=
  match r with
  | Done a => k a
  | Raised e => Raised e
  end.

End St.

Declare Scope script_scope.
Delimit Scope script_scope with script.
Notation "x <- m ;; k" := (St.bind m (fun x => k))
  (at level 61, m at next level, right associativity) : script_scope.
Notation "m ;; k" := (St.bind m (fun _ => k))
  (at level 61, right associativity) : script_scope.
Notation "'try' x <- r ;; k" := (St.and_then r (fun x => k))
  (at level 61, x name, r at next level, right associativity).

(** ** dashboard.py *)

Module Dashboard.
Import Pd St.

Inductive source : Type := CLEAN | RAW_auto_clean.

(** What the working directory holds: for each candidate path, the table
    [pd.read_csv] parses from it when the file exists.  A file that exists
    is taken to parse: the exceptions [pd.read_csv] raises on an empty or
    malformed file are not covered. *)
Record folder : Type := {
  Food_Delivery_Times_CLEAN_csv : option DataFrame;
  Food_Delivery_Times_csv : option DataFrame
}.

(** [df[c]] followed by a Series method. *)
Definition series (c : string) (df : DataFrame) : result Series :=
  match get c df with
  | None => Raised (KeyError c)
  | Some s => if 2 <=? count_label c df then Raised (DuplicateLabel c) else Done s
  end.

(** [for c in cs: df = body(c, df)]. *)
Fixpoint for_each (cs : list string) (body : string -> DataFrame -> result DataFrame)
    (df : DataFrame) : result DataFrame :=
  match cs with
  | [] => Done df
  | c :: r => try df' <- body c df ;; for_each r body df'
  end.

(** [if c in df.columns: df = update(df[c])], the shape of lines 30-31,
    41-42, 46-47 and 49-51. *)
Definition when_present (update : Series -> result Series) (c : string)
    (df : DataFrame) : result DataFrame :=
  if Py.mem c (columns df) then
    try s <- series c df ;;
    try s' <- update s ;;
    Done (assign c (fun _ => s') df)
  else Done df.

Definition numeric_columns : list string :=
  ["Distance_km"; "Courier_Experience_yrs"; "Delivery_Time_min"].

Definition maps : list (string * list (string * string)) :=
  [ ("Weather", [("sunny", "Sunny"); ("rainy", "Rainy"); ("snowy", "Snowy");
                 ("foggy", "Foggy"); ("windy", "Windy")]);
    ("Traffic_Level", [("low", "Low"); ("medium", "Medium"); ("high", "High")]);
    ("Time_of_Day", [("morning", "Morning"); ("afternoon", "Afternoon");
                     ("evening", "Evening"); ("night", "Night")]);
    ("Vehicle_Type", [("bike", "Bike"); ("scooter", "Scooter"); ("car", "Car")]) ].

Definition categorical_columns : list string :=
  ["Weather"; "Traffic_Level"; "Time_of_Day"; "Vehicle_Type"].

Definition imputed_numeric_columns : list string :=
  ["Distance_km"; "Courier_Experience_yrs"].

(** [s.astype(str)] on a text cell: NaN prints as "nan". *)
Definition astype_str (x : option string) : string :=
  match x with
  | Some t => t
  | None => "nan"
  end.

(** [def norm(s): return s.astype(str).str.strip().str.lower()] *)
Definition norm (xs : list (option string)) : list string :=
  map (fun x => Py.lower (Py.strip (astype_str x))) xs.

(** [.map(mp)]: a key that is not in the dict gives NaN. *)
Definition map_dict (mp : list (string * string)) (ks : list string)
    : list (option string) :=
  map (fun k => Py.dict_get k mp) ks.

(** Line 42, [norm(df[col]).map(mp).fillna(df[col])].  On a float column
    [astype(str)] prints numerals (or "nan", "inf"), none of which is a key
    of [maps], so [map] gives NaN everywhere and [fillna] puts the column
    back. *)
Definition normalized (mp : list (string * string)) (s : Series) : Series :=
  match s with
  | ObjCol xs => ObjCol (fillna_from (map_dict mp (norm xs)) xs)
  | NumCol xs => NumCol xs
  end.

(** Lines 46-47, [df[c].fillna(df[c].median())] when a cell is missing. *)
Definition fill_median (c : string) (s : Series) : result Series :=
  if 0 <? na_count s then
    match s with
    | NumCol xs => Done (NumCol (fillna (median xs) xs))
    | ObjCol _ => Raised (NotNumeric c)
    end
  else Done s.

(** Lines 49-51, [m = df[c].mode(dropna=True)] and
    [if len(m): df[c] = df[c].fillna(m.iloc[0])]. *)
Definition fill_mode (s : Series) : result Series :=
  if 0 <? na_count s then
    match s with
    | ObjCol xs =>
        match mode String.eqb String.leb xs with
        | m :: _ => Done (ObjCol (fillna (Some m) xs))
        | [] => Done s
        end
    | NumCol xs =>
        match mode Qeq_bool Qle_bool xs with
        | m :: _ => Done (NumCol (fillna (Some m) xs))
        | [] => Done s
        end
    end
  else Done s.

Section Load.
  (** [pd.to_numeric(_, errors="coerce")] on one text cell: the number it
      parses to, or NaN. *)
Variable to_float : string -> option Q.

Definition to_numeric (s : Series) : Series :=
    match s with
    | NumCol xs => NumCol xs
    | ObjCol xs =>
        NumCol (map (fun x => match x with Some t => to_float t | None => None end) xs)
    end.

  (** Lines 27-52, the fallback minimal clean of the raw file. *)
Definition auto_clean (raw : DataFrame) : result DataFrame :=
    let df := rename Py.strip raw in
    try df <- for_each numeric_columns
                (when_present (fun s => Done (to_numeric s))) df ;;
    try df <- for_each (map fst maps)
                (fun col => when_present
                   (fun s => Done (normalized
                      (match Py.dict_get col maps with Some mp => mp | None => [] end) s))
                   col) df ;;
    try dt <- series "Delivery_Time_min" df ;;
    let df := loc (map negb (isna dt)) df in
    try df <- for_each imputed_numeric_columns
                (fun c => when_present (fill_median c) c) df ;;
    for_each categorical_columns (when_present fill_mode) df.

Definition load_data (dir : folder) : script (DataFrame * source) :=
    match Food_Delivery_Times_CLEAN_csv dir, Food_Delivery_Times_csv dir with
    | Some df, _ => ret (df, CLEAN)
    | None, Some raw =>
        (df <- lift (auto_clean raw) ;; ret (df, RAW_auto_clean))%script
    | None, None => (emit (Error PutSourceFile) ;; stop)%script
    end.

Definition needed : list string :=
    ["Delivery_Time_min"; "Distance_km"; "Courier_Experience_yrs";
     "Weather"; "Traffic_Level"; "Time_of_Day"; "Vehicle_Type"].

  (** [missing = [c for c in needed if c not in df.columns]] *)
Definition missing (df : DataFrame) : list string :=
    filter (fun c => negb (Py.mem c (columns df))) needed.

  (** Lines 57-64: load, then check the required columns. *)
Definition startup (dir : folder) : script (DataFrame * source) :=
    (loaded <- load_data dir ;;
     match missing (fst loaded) with
     | [] => ret loaded
     | (_ :: _) as m => emit (Error (RequiredFieldsMissing m)) ;; stop
     end)%script.
End Load.

(** *** Colour palettes, lines 66-98 *)

Definition COLOR_WEATHER : list (string * string) :=
  [("Sunny", "#FDB813"); ("Rainy", "#4C78A8"); ("Snowy", "#9EC1CF");
   ("Foggy", "#B8B8B8"); ("Windy", "#72B7B2")].

Definition COLOR_TRAFFIC : list (string * string) :=
  [("Low", "#59A14F"); ("Medium", "#F28E2B"); ("High", "#E15759")].

Definition COLOR_TOD : list (string * string) :=
  [("Morning", "#7AA6C2"); ("Afternoon", "#86BCB6"); ("Evening", "#C4B7D7");
   ("Night", "#A1A6B4")].

Definition COLOR_VEH : list (string * string) :=
  [("Bike", "#8CD17D"); ("Scooter", "#B6992D"); ("Car", "#499894")].

(** [palette_for(column)]: indexing the dict literal raises [KeyError] on a
    name that is not one of its four keys. *)
Definition palette_for (column : string) : result (list (string * string)) :=
  match Py.dict_get column
          [("Weather", COLOR_WEATHER); ("Traffic_Level", COLOR_TRAFFIC);
           ("Time_of_Day", COLOR_TOD); ("Vehicle_Type", COLOR_VEH)] with
  | Some palette => Done palette
  | None => Raised (KeyError column)
  end.

(** *** Sidebar filters, lines 100-127 *)

(** The values a multiselect offers and returns: labels of a text column,
    or numbers when the column was parsed as float. *)
Inductive labels : Type :=
| Texts (vs : list string)
| Numbers (vs : list Q).

(** A numeric method on [df[c]]: the float cells of the column. *)
Definition floats (c : string) (df : DataFrame) : result (list (option Q)) :=
  try s <- series c df ;;
  match s with
  | NumCol xs => Done xs
  | ObjCol _ => Raised (NotNumeric c)
  end.

(** [sorted(df[c].dropna().unique())], lines 102-105. *)
Definition opts (c : string) (df : DataFrame) : result labels :=
  try s <- series c df ;;
  Done match s with
       | ObjCol xs => Texts (Py.sorted String.leb (unique String.eqb (dropna xs)))
       | NumCol xs => Numbers (Py.sorted Qle_bool (unique Qeq_bool (dropna xs)))
       end.

(** What the widgets hand back: one selection per categorical column and
    one [(lo, hi)] pair per slider.  The sliders' own scale ([min_value],
    [max_value], [step]) is drawn by Streamlit and takes no part in [dff]. *)
Record FilterSpec : Type := {
  weather_sel : labels;
  traffic_sel : labels;
  tod_sel : labels;
  vehicle_sel : labels;
  dist_range : option Q * option Q;
  exp_range : option Q * option Q
}.

(** The widgets' defaults: every option selected ([default=w_opts], ...) and
    [value=(dist_min, dist_max)], [value=(exp_min, exp_max)]. *)
Definition defaults (df : DataFrame) : result FilterSpec :=
  try w_opts <- opts "Weather" df ;;
  try t_opts <- opts "Traffic_Level" df ;;
  try tod_opts <- opts "Time_of_Day" df ;;
  try v_opts <- opts "Vehicle_Type" df ;;
  try dist <- floats "Distance_km" df ;;
  try exp <- floats "Courier_Experience_yrs" df ;;
  Done {| weather_sel := w_opts; traffic_sel := t_opts;
          tod_sel := tod_opts; vehicle_sel := v_opts;
          dist_range := (Pd.min dist, Pd.max dist);
          exp_range := (Pd.min exp, Pd.max exp) |}.

(** [s.isin(sel)]; a text never equals a number. *)
Definition isin_sel (sel : labels) (s : Series) : list bool :=
  match s, sel with
  | ObjCol xs, Texts vs => map (isin String.eqb vs) xs
  | NumCol xs, Numbers vs => map (isin Qeq_bool vs) xs
  | ObjCol xs, Numbers _ => map (fun _ => false) xs
  | NumCol xs, Texts _ => map (fun _ => false) xs
  end.

(** [m1 & m2] on two masks over the same index. *)
Definition band (m1 m2 : list bool) : list bool :=
  map (fun p => fst p && snd p) (combine m1 m2).

(** Lines 120-127. *)
Definition dff (df : DataFrame) (spec : FilterSpec) : result DataFrame :=
  try w <- series "Weather" df ;;
  try t <- series "Traffic_Level" df ;;
  try tod <- series "Time_of_Day" df ;;
  try v <- series "Vehicle_Type" df ;;
  try dist <- floats "Distance_km" df ;;
  try exp <- floats "Courier_Experience_yrs" df ;;
  Done (loc
    (band (band (band (band (band
       (isin_sel (weather_sel spec) w)
       (isin_sel (traffic_sel spec) t))
       (isin_sel (tod_sel spec) tod))
       (isin_sel (vehicle_sel spec) v))
       (map (between (fst (dist_range spec)) (snd (dist_range spec))) dist))
       (map (between (fst (exp_range spec)) (snd (exp_range spec))) exp))
    df).

(** *** KPIs and correlation, lines 129-142 and 225-226 *)

(** [dff.empty]: no rows or no columns. *)
Definition empty (df : DataFrame) : bool :=
  (len df =? 0) || (length (columns df) =? 0).

Definition use_cols : list string :=
  ["Distance_km"; "Courier_Experience_yrs"; "Delivery_Time_min"].

(** [dff[use_cols].corr()], row by row. *)
Definition corr (df : DataFrame) : result (list (list (option pearson))) :=
  try d <- floats "Distance_km" df ;;
  try e <- floats "Courier_Experience_yrs" df ;;
  try t <- floats "Delivery_Time_min" df ;;
  Done (map (fun a => map (corr_entry a) [d; e; t]) [d; e; t]).

(** What the page shows for a filtered table.  The charts between the KPIs
    and the heatmap only draw [dff]. *)
Definition page (view : DataFrame) : script unit :=
  (emit (SidebarSuccess (len view)) ;;
   if empty view then emit (Warning NoDataAfterFilter) ;; stop
   else
     t <- lift (floats "Delivery_Time_min" view) ;;
     emit (Metric "Mean" (mean t)) ;;
     emit (Metric "Median" (median t)) ;;
     emit (Metric "p90" (quantile (9 # 10) t)) ;;
     emit (MetricCount (len view)) ;;
     m <- lift (corr view) ;;
     emit (Heatmap m))%script.

(** The statistics of lines 139-142 and 225-226, as values: what the page
    computes from a view, apart from the guard of lines 130-132 under which
    the script runs them. *)
Record summary : Type := {
  mean_min : option Q;
  median_min : option Q;
  p90_min : option Q;
  count : nat;
  correlation : list (list (option pearson))
}.

Definition summarize (view : DataFrame) : result summary :=
  try t <- floats "Delivery_Time_min" view ;;
  try m <- corr view ;;
  Done {| mean_min := mean t;
          median_min := median t;
          p90_min := quantile (9 # 10) t;
          count := len view;
          correlation := m |}.

Section Run.
Variable to_float : string -> option Q.

  (** One run of the script; [widgets] is what the user did to the
      defaults of the sidebar.  The widget calls themselves (the sliders of
      lines 114-118 check their bounds) and the chart calls are Streamlit's
      and Plotly's and are not covered. *)
Definition main (dir : folder) (widgets : FilterSpec -> FilterSpec) : script unit :=
    (loaded <- startup to_float dir ;;
     spec <- lift (defaults (fst loaded)) ;;
     view <- lift (dff (fst loaded) (widgets spec)) ;;
     page view)%script.
End Run.

End Dashboard.

(** ** Notions used to state the properties *)

Module Notions.
Import Pd St Dashboard.

(** The column an update leaves behind: its result, or the column as it
    was when the update raises. *)
Definition total (u : Series -> result Series) (s : Series) : Series :=
  match u s with
  | Done s' => s'
  | _ => s
  end.

(** The dict of [maps] line 42 uses for column [col]. *)
Definition dict_for (col : string) : list (string * string) :=
  match Py.dict_get col maps with
  | Some mp => mp
  | None => []
  end.

(** The canonical labels of a dict: its values. *)
Definition canonical (mp : list (string * string)) : list string := map snd mp.

(** Line 42 on one cell. *)
Definition norm_cell (mp : list (string * string)) (x : option string) : option string :=
  match Py.dict_get (Py.lower (Py.strip (astype_str x))) mp with
  | Some label => Some label
  | None => x
  end.

Section Cleaned.
Variable to_float : string -> option Q.

(** The table after lines 28-42: names trimmed, numeric columns coerced,
    categorical columns mapped. *)
Definition normalized_table (raw : DataFrame) : DataFrame :=
  fold_left (fun d c => assign c (normalized (dict_for c)) d) (map fst maps)
    (fold_left (fun d c => assign c (to_numeric to_float) d) numeric_columns
       (rename Py.strip raw)).

(** The mask of line 43: the rows whose delivery time is present. *)
Definition retained (raw : DataFrame) : list bool :=
  match get "Delivery_Time_min" (normalized_table raw) with
  | Some dt => map negb (isna dt)
  | None => []
  end.

(** The table [auto_clean] returns when it does not raise. *)
Definition cleaned (raw : DataFrame) : DataFrame :=
  fold_left (fun d c => assign c (total fill_mode) d) categorical_columns
    (fold_left (fun d c => assign c (total (fill_median c)) d) imputed_numeric_columns
       (loc (retained raw) (normalized_table raw))).
End Cleaned.

(** The six columns the sidebar filters on. *)
Definition filter_columns : list string :=
  ["Weather"; "Traffic_Level"; "Time_of_Day"; "Vehicle_Type";
   "Distance_km"; "Courier_Experience_yrs"].

(** No cell of the column is missing. *)
Definition complete (s : Series) : Prop := na_count s = 0.

(** All present values of a column are one and the same number. *)
Definition constant (xs : list (option Q)) : Prop :=
  exists c : Q, forall x, In (Some x) xs -> (x == c)%Q.

(** The rows in which column [c] has a value. *)
Definition present_in (c : string) (df : DataFrame) : list bool :=
  match get c df with
  | Some s => map negb (isna s)
  | None => []
  end.

(** The rows that have a value in each of the six filtered columns. *)
Definition complete_rows (df : DataFrame) : list bool :=
  band (band (band (band (band
    (present_in "Weather" df)
    (present_in "Traffic_Level" df))
    (present_in "Time_of_Day" df))
    (present_in "Vehicle_Type" df))
    (present_in "Distance_km" df))
    (present_in "Courier_Experience_yrs" df).

(** Nothing is selected in a multiselect. *)
Definition none_selected (sel : labels) : Prop :=
  sel = Texts [] \/ sel = Numbers [].

(** How many rows a mask keeps. *)
Definition kept (mask : list bool) : nat := length (filter (fun b => b) mask).

(** A table that needs no cleaning: rectangular, names trimmed, required
    labels not duplicated, delivery time, distance and experience float
    columns without a missing cell, categorical columns without a missing
    cell and holding canonical labels only. *)
Definition tidy (df : DataFrame) : Prop :=
  aligned df /\
  Forall (fun n => Py.strip n = n) (columns df) /\
  Forall (fun c => count_label c df <= 1) needed /\
  (exists vs, get "Delivery_Time_min" df = Some (NumCol (map Some vs))) /\
  (forall c s, In c imputed_numeric_columns -> get c df = Some s ->
     exists vs, s = NumCol (map Some vs)) /\
  (forall c s, In c categorical_columns -> get c df = Some s ->
     exists ls, s = ObjCol (map Some ls) /\
                Forall (fun l => In l (canonical (dict_for c))) ls).

(** One cell of a table: a number or a text, present or missing. *)
Inductive value : Type :=
| Number (x : option Q)
| Text (x : option string).

(** The cell of a column in row [i], if the column has such a row. *)
Definition cell (s : Series) (i : nat) : option value :=
  match s with
  | NumCol xs => option_map Number (nth_error xs i)
  | ObjCol xs => option_map Text (nth_error xs i)
  end.

(** Row [i] of [df] is row [k] of [view]: every column of [df] is a column
    of [view] and holds there, in row [k], the cell it has in row [i]. *)
Definition same_row (df : DataFrame) (i : nat) (view : DataFrame) (k : nat) : Prop :=
  forall c s, get c df = Some s ->
    exists s', get c view = Some s' /\ cell s' k = cell s i.

End Notions.


(** ** Sample folders and tables *)

Module Samples.
Import Pd St Dashboard.

(** A reader of plain unsigned integer numerals, to run [load_data] on
    sample tables. *)
Definition digit (c : ascii) : option nat :=
  let n := nat_of_ascii c in
  if (48 <=? n) && (n <=? 57) then Some (n - 48) else None.

Fixpoint digits (acc : nat) (s : string) : option nat :=
  match s with
  | EmptyString => Some acc
  | String c r =>
      match digit c with
      | Some d => digits (10 * acc + d) r
      | None => None
      end
  end.

Definition plain (s : string) : option Q :=
  match Py.strip s with
  | EmptyString => None
  | t => option_map (fun n => inject_Z (Z.of_nat n)) (digits 0 t)
  end.

Definition only_raw (raw : DataFrame) : folder :=
  {| Food_Delivery_Times_CLEAN_csv := None; Food_Delivery_Times_csv := Some raw |}.

Definition only_clean (df : DataFrame) : folder :=
  {| Food_Delivery_Times_CLEAN_csv := Some df; Food_Delivery_Times_csv := None |}.

(** A raw file with untidy headers and cells. *)
Definition untidy_raw : DataFrame :=
  [ (" Delivery_Time_min", ObjCol [Some "30"; Some "late"; Some "45"; Some "60"]);
    ("Distance_km ", NumCol [Some 7%Q; Some 900%Q; None; Some 3%Q]);
    ("Courier_Experience_yrs", NumCol [Some 2%Q; Some 9%Q; Some 4%Q; None]);
    ("Weather", ObjCol [Some " RAINY "; Some "Snowy"; Some "storm"; None]);
    ("Traffic_Level", ObjCol [Some "low"; Some "High"; Some "High"; Some "LOW"]);
    ("Time_of_Day", ObjCol [Some "Night"; Some "Night"; None; Some "morning"]);
    ("Vehicle_Type", ObjCol [Some "car"; Some "car"; Some "Bike"; Some "bike "]);
    ("Order_ID", NumCol [Some 1%Q; Some 2%Q; Some 3%Q; Some 4%Q]) ].

Definition untidy_cleaned : DataFrame :=
  [ ("Delivery_Time_min", NumCol [Some 30%Q; Some 45%Q; Some 60%Q]);
    ("Distance_km", NumCol [Some 7%Q; Some (10 # 2)%Q; Some 3%Q]);
    ("Courier_Experience_yrs", NumCol [Some 2%Q; Some 4%Q; Some (6 # 2)%Q]);
    ("Weather", ObjCol [Some "Rainy"; Some "storm"; Some "Rainy"]);
    ("Traffic_Level", ObjCol [Some "Low"; Some "High"; Some "Low"]);
    ("Time_of_Day", ObjCol [Some "Night"; Some "Morning"; Some "Morning"]);
    ("Vehicle_Type", ObjCol [Some "Car"; Some "Bike"; Some "Bike"]);
    ("Order_ID", NumCol [Some 1%Q; Some 3%Q; Some 4%Q]) ].

(** A raw file that lacks the delivery-time column. *)
Definition no_delivery_raw : DataFrame :=
  [ ("Distance_km", NumCol [Some 7%Q; Some 3%Q]);
    ("Courier_Experience_yrs", NumCol [Some 2%Q; Some 4%Q]);
    ("Weather", ObjCol [Some "Sunny"; Some "Rainy"]);
    ("Traffic_Level", ObjCol [Some "Low"; Some "High"]);
    ("Time_of_Day", ObjCol [Some "Night"; Some "Morning"]);
    ("Vehicle_Type", ObjCol [Some "Car"; Some "Bike"]) ].

(** A pre-cleaned file that is not clean: a missing delivery time, a label
    outside the canonical set, a text token in a numeric column. *)
Definition dirty_clean : DataFrame :=
  [ ("Delivery_Time_min", NumCol [None; Some 45%Q]);
    ("Distance_km", ObjCol [Some "far"; Some "3"]);
    ("Courier_Experience_yrs", NumCol [Some 2%Q; Some 4%Q]);
    ("Weather", ObjCol [Some "storm"; Some " RAINY "]);
    ("Traffic_Level", ObjCol [Some "Low"; Some "High"]);
    ("Time_of_Day", ObjCol [Some "Night"; Some "Morning"]);
    ("Vehicle_Type", ObjCol [Some "Car"; Some "Bike"]) ].

(** The five deliveries of the KPI scenario. *)
Definition five_times : list (option Q) :=
  [Some 30%Q; Some 45%Q; Some 45%Q; Some 60%Q; Some 90%Q].

Definition five_deliveries : DataFrame :=
  [ ("Delivery_Time_min", NumCol five_times);
    ("Distance_km", NumCol [Some 2%Q; Some 4%Q; Some 5%Q; Some 7%Q; Some 12%Q]);
    ("Courier_Experience_yrs", NumCol [Some 1%Q; Some 1%Q; Some 1%Q; Some 1%Q; Some 1%Q]);
    ("Weather", ObjCol [Some "Sunny"; Some "Rainy"; Some "Sunny"; Some "Foggy"; Some "Snowy"]);
    ("Traffic_Level", ObjCol [Some "Low"; Some "Low"; Some "Medium"; Some "High"; Some "High"]);
    ("Time_of_Day", ObjCol [Some "Night"; Some "Morning"; Some "Evening"; Some "Night"; Some "Night"]);
    ("Vehicle_Type", ObjCol [Some "Car"; Some "Bike"; Some "Bike"; Some "Scooter"; Some "Car"]) ].

(** A raw file whose weather column is empty throughout, and its clean. *)
Definition no_weather_raw : DataFrame :=
  [ ("Delivery_Time_min", NumCol [Some 30%Q; Some 45%Q]);
    ("Distance_km", NumCol [Some 7%Q; Some 3%Q]);
    ("Courier_Experience_yrs", NumCol [Some 2%Q; Some 4%Q]);
    ("Weather", NumCol [None; None]);
    ("Traffic_Level", ObjCol [Some "low"; Some "high"]);
    ("Time_of_Day", ObjCol [Some "night"; Some "morning"]);
    ("Vehicle_Type", ObjCol [Some "car"; Some "bike"]) ].

Definition no_weather_cleaned : DataFrame :=
  [ ("Delivery_Time_min", NumCol [Some 30%Q; Some 45%Q]);
    ("Distance_km", NumCol [Some 7%Q; Some 3%Q]);
    ("Courier_Experience_yrs", NumCol [Some 2%Q; Some 4%Q]);
    ("Weather", NumCol [None; None]);
    ("Traffic_Level", ObjCol [Some "Low"; Some "High"]);
    ("Time_of_Day", ObjCol [Some "Night"; Some "Morning"]);
    ("Vehicle_Type", ObjCol [Some "Car"; Some "Bike"]) ].

(** The seven columns with no row left. *)
Definition no_rows : DataFrame :=
  [ ("Delivery_Time_min", NumCol []);
    ("Distance_km", NumCol []);
    ("Courier_Experience_yrs", NumCol []);
    ("Weather", NumCol []);
    ("Traffic_Level", ObjCol []);
    ("Time_of_Day", ObjCol []);
    ("Vehicle_Type", ObjCol []) ].

(** Nothing selected in any multiselect; both sliders at [3, 7]. *)
Definition nothing_selected : FilterSpec :=
  {| weather_sel := Texts []; traffic_sel := Texts [];
     tod_sel := Texts []; vehicle_sel := Texts [];
     dist_range := (Some 3%Q, Some 7%Q);
     exp_range := (Some 3%Q, Some 7%Q) |}.

(** Sunny or rainy deliveries of at most 5 km, anything else allowed. *)
Definition fair_and_near : FilterSpec :=
  {| weather_sel := Texts ["Rainy"; "Sunny"];
     traffic_sel := Texts ["High"; "Low"; "Medium"];
     tod_sel := Texts ["Evening"; "Morning"; "Night"];
     vehicle_sel := Texts ["Bike"; "Car"; "Scooter"];
     dist_range := (Some 2%Q, Some 5%Q);
     exp_range := (Some 1%Q, Some 1%Q) |}.

Definition fair_and_near_view : DataFrame :=
  [ ("Delivery_Time_min", NumCol [Some 30%Q; Some 45%Q; Some 45%Q]);
    ("Distance_km", NumCol [Some 2%Q; Some 4%Q; Some 5%Q]);
    ("Courier_Experience_yrs", NumCol [Some 1%Q; Some 1%Q; Some 1%Q]);
    ("Weather", ObjCol [Some "Sunny"; Some "Rainy"; Some "Sunny"]);
    ("Traffic_Level", ObjCol [Some "Low"; Some "Low"; Some "Medium"]);
    ("Time_of_Day", ObjCol [Some "Night"; Some "Morning"; Some "Evening"]);
    ("Vehicle_Type", ObjCol [Some "Car"; Some "Bike"; Some "Bike"]) ].

(** A pre-cleaned file with gaps: no weather in the first row, no distance
    in the third. *)
Definition dirty_clean_numeric : DataFrame :=
  [ ("Delivery_Time_min", NumCol [Some 30%Q; Some 45%Q; Some 60%Q]);
    ("Distance_km", NumCol [Some 7%Q; Some 3%Q; None]);
    ("Courier_Experience_yrs", NumCol [Some 2%Q; Some 4%Q; Some 1%Q]);
    ("Weather", ObjCol [None; Some "Rainy"; Some "Sunny"]);
    ("Traffic_Level", ObjCol [Some "Low"; Some "High"; Some "Low"]);
    ("Time_of_Day", ObjCol [Some "Night"; Some "Morning"; Some "Night"]);
    ("Vehicle_Type", ObjCol [Some "Car"; Some "Bike"; Some "Car"]) ].

End Samples.


(** * Properties *)

(** ** Strings and sorting *)

Module PyFacts.
Import Py.

Lemma lstrip_idem (s : string) : lstrip (lstrip s) = lstrip s.
Proof.
  induction s as [|c r IH]; simpl; [reflexivity|].
  destruct (isspace c) eqn:E; [exact IH|].
  simpl. rewrite E. reflexivity.
Qed.

Lemma rstrip_idem (s : string) : rstrip (rstrip s) = rstrip s.
Proof.
  induction s as [|c r IH]; simpl; [reflexivity|].
  destruct (rstrip r) as [|c' r'] eqn:E.
  - destruct (isspace c) eqn:Ec; simpl; [reflexivity|].
    rewrite Ec. reflexivity.
  - simpl. simpl in IH. rewrite IH. reflexivity.
Qed.

(** Removing leading blanks from a string without trailing blanks leaves no
    trailing blanks. *)
Lemma rstrip_lstrip_fixed (s : string) :
  rstrip s = s -> rstrip (lstrip s) = lstrip s.
Proof.
  induction s as [|c r IH]; simpl; [reflexivity|].
  intros H. destruct (isspace c) eqn:Ec.
  - apply IH. destruct (rstrip r) as [|c' r'] eqn:E.
    + discriminate.
    + now inversion H.
  - simpl. rewrite Ec. exact H.
Qed.

Lemma strip_idem (s : string) : strip (strip s) = strip s.
Proof.
  unfold strip.
  rewrite (rstrip_lstrip_fixed (rstrip s) (rstrip_idem s)).
  apply lstrip_idem.
Qed.

Lemma mem_In (x : string) (xs : list string) : mem x xs = true <-> In x xs.
Proof.
  unfold mem. rewrite existsb_exists. split.
  - intros [y [Hy E]]. apply String.eqb_eq in E. now subst.
  - intros H. exists x. split; [exact H|apply String.eqb_refl].
Qed.

Lemma dict_get_In {V : Type} (k : string) (d : list (string * V)) (v : V) :
  dict_get k d = Some v -> In (k, v) d.
Proof.
  induction d as [|[k' v'] r IH]; simpl; [discriminate|].
  destruct (String.eqb k k') eqn:E.
  - intros H. inversion H. subst. apply String.eqb_eq in E. subst. now left.
  - intros H. right. now apply IH.
Qed.

Section Sorted.
Context {A : Type} (leb : A -> A -> bool).

Lemma In_insert (x y : A) (l : list A) :
    In y (insert leb x l) <-> y = x \/ In y l.
  Proof.
    induction l as [|z r IH]; simpl.
    - intuition.
    - destruct (leb x z); simpl; rewrite ?IH; intuition.
  Qed.

Lemma In_sorted (y : A) (l : list A) : In y (sorted leb l) <-> In y l.
  Proof.
    induction l as [|x r IH]; simpl; [reflexivity|].
    rewrite In_insert, IH. intuition.
  Qed.

Lemma length_insert (x : A) (l : list A) :
    length (insert leb x l) = S (length l).
  Proof.
    induction l as [|z r IH]; simpl; [reflexivity|].
    destruct (leb x z); simpl; [reflexivity|now rewrite IH].
  Qed.

Lemma existsb_sorted (p : A -> bool) (l : list A) :
    existsb p (sorted leb l) = existsb p l.
  Proof.
    destruct (existsb p l) eqn:E.
    - apply existsb_exists in E. destruct E as [y [Hy Py]].
      apply existsb_exists. exists y.
      split; [apply (proj2 (In_sorted y l)); exact Hy|exact Py].
    - destruct (existsb p (sorted leb l)) eqn:E'; [|reflexivity].
      apply existsb_exists in E'. destruct E' as [y [Hy Py]].
      apply (proj1 (In_sorted y l)) in Hy.
      assert (existsb p l = true) as E''
        by (apply existsb_exists; exists y; split; assumption).
      congruence.
  Qed.
End Sorted.

End PyFacts.

(** ** Tables *)

Module PdFacts.
Import Pd.

Lemma columns_assign (c : string) (f : Series -> Series) (df : DataFrame) :
  columns (assign c f df) = columns df.
Proof.
  unfold columns, assign. rewrite map_map. apply map_ext.
  intros [n s]. simpl. now destruct (String.eqb n c).
Qed.

Lemma columns_loc (mask : list bool) (df : DataFrame) :
  columns (loc mask df) = columns df.
Proof. unfold columns, loc. rewrite map_map. now apply map_ext. Qed.

Lemma columns_rename (g : string -> string) (df : DataFrame) :
  columns (rename g df) = map g (columns df).
Proof. unfold columns, rename. now rewrite !map_map. Qed.

Lemma count_label_assign c c' f df :
  count_label c (assign c' f df) = count_label c df.
Proof. unfold count_label. now rewrite columns_assign. Qed.

Lemma count_label_loc c mask df : count_label c (loc mask df) = count_label c df.
Proof. unfold count_label. now rewrite columns_loc. Qed.

Lemma get_assign (c c' : string) (f : Series -> Series) (df : DataFrame) :
  get c' (assign c f df)
  = if String.eqb c' c then option_map f (get c' df) else get c' df.
Proof.
  induction df as [|[n s] r IH]; simpl.
  - now destruct (String.eqb c' c).
  - destruct (String.eqb n c) eqn:Enc; simpl;
      destruct (String.eqb n c') eqn:Enc'; try exact IH.
    + apply String.eqb_eq in Enc, Enc'. subst.
      now rewrite String.eqb_refl.
    + apply String.eqb_eq in Enc'. subst.
      rewrite Enc. reflexivity.
Qed.

Lemma get_loc (c : string) (mask : list bool) (df : DataFrame) :
  get c (loc mask df) = option_map (take mask) (get c df).
Proof.
  induction df as [|[n s] r IH]; simpl; [reflexivity|].
  now destruct (String.eqb n c).
Qed.

Lemma get_rename_In (g : string -> string) (c : string) (df : DataFrame) (s : Series) :
  get c (rename g df) = Some s -> In s (map snd df).
Proof.
  induction df as [|[n x] r IH]; simpl; [discriminate|].
  destruct (String.eqb (g n) c).
  - intros H. inversion H. now left.
  - intros H. right. now apply IH.
Qed.

Lemma get_In (c : string) (df : DataFrame) (s : Series) :
  get c df = Some s -> In (c, s) df.
Proof.
  induction df as [|[n x] r IH]; simpl; [discriminate|].
  destruct (String.eqb n c) eqn:E.
  - intros H. inversion H. apply String.eqb_eq in E. subst. now left.
  - intros H. right. now apply IH.
Qed.

Lemma mem_columns_get (c : string) (df : DataFrame) :
  Py.mem c (columns df) = match get c df with Some _ => true | None => false end.
Proof.
  induction df as [|[n s] r IH]; simpl; [reflexivity|].
  rewrite (String.eqb_sym c n). destruct (String.eqb n c); [reflexivity|exact IH].
Qed.

Lemma count_label_zero_get (c : string) (df : DataFrame) :
  count_label c df = 0 -> get c df = None.
Proof.
  unfold count_label. induction df as [|[n s] r IH]; simpl; [reflexivity|].
  rewrite (String.eqb_sym c n). destruct (String.eqb n c); simpl; [discriminate|exact IH].
Qed.

Lemma assign_absent (c : string) (f : Series -> Series) (df : DataFrame) :
  get c df = None -> assign c f df = df.
Proof.
  induction df as [|[n s] r IH]; simpl; [reflexivity|].
  destruct (String.eqb n c); [discriminate|].
  intros H. now rewrite IH.
Qed.

(** With a label that occurs once, only the series [df[c]] matters to an
    assignment. *)
Lemma assign_ext (c : string) (f g : Series -> Series) (df : DataFrame) :
  count_label c df <= 1 ->
  (forall s, get c df = Some s -> f s = g s) ->
  assign c f df = assign c g df.
Proof.
  unfold count_label.
  induction df as [|[n s] r IH]; simpl; [reflexivity|].
  rewrite (String.eqb_sym c n). destruct (String.eqb n c) eqn:E; simpl.
  - intros Hc Hfg. rewrite (Hfg s eq_refl).
    assert (get c r = None) as Hr by (apply count_label_zero_get; unfold count_label; lia).
    now rewrite !(assign_absent c _ r Hr).
  - intros Hc Hfg. now rewrite IH.
Qed.

Lemma assign_same (c : string) (f : Series -> Series) (df : DataFrame) :
  count_label c df <= 1 ->
  (forall s, get c df = Some s -> f s = s) ->
  assign c f df = df.
Proof.
  intros Hc Hf. rewrite (assign_ext c f (fun s => s) df Hc Hf).
  unfold assign. rewrite <- (map_id df) at 2. apply map_ext.
  intros [n s]. simpl. now destruct (String.eqb n c).
Qed.

Lemma rename_same (g : string -> string) (df : DataFrame) :
  Forall (fun n => g n = n) (columns df) -> rename g df = df.
Proof.
  induction df as [|[n s] r IH]; simpl; [reflexivity|].
  intros H. inversion H as [|? ? Hn Hr]. subst. simpl in Hn.
  unfold rename in *. simpl. rewrite Hn. now rewrite IH.
Qed.

(** *** Masks *)

Lemma compress_all {A : Type} (n : nat) (xs : list A) :
  length xs <= n -> compress (repeat true n) xs = xs.
Proof.
  revert n. induction xs as [|x r IH]; intros [|n] H; simpl in *;
    try reflexivity; try lia.
  rewrite IH; [reflexivity|lia].
Qed.

Lemma length_compress {A : Type} (mask : list bool) (xs : list A) :
  length (compress mask xs) <= length (filter (fun b => b) mask).
Proof.
  revert xs. induction mask as [|b m IH]; intros [|x r]; simpl; try lia.
  destruct b; simpl; specialize (IH r); lia.
Qed.

Lemma In_compress {A : Type} (mask : list bool) (xs : list A) (x : A) :
  In x (compress mask xs) -> In x xs.
Proof.
  revert xs. induction mask as [|b m IH]; intros [|y r]; simpl; try tauto.
  destruct b; simpl; intros H; [destruct H as [H|H]|]; auto.
Qed.

(** Keeping the rows where a column is present leaves its present values,
    in order. *)
Lemma compress_notna {A : Type} (xs : list (option A)) :
  compress (map negb (map is_none xs)) xs = map Some (dropna xs).
Proof.
  induction xs as [|[x|] r IH]; simpl; [reflexivity| |exact IH].
  now rewrite IH.
Qed.

Lemma length_notna {A : Type} (xs : list (option A)) :
  length (filter (fun b => b) (map negb (map is_none xs))) = length (dropna xs).
Proof.
  induction xs as [|[x|] r IH]; simpl; [reflexivity| |exact IH].
  now rewrite IH.
Qed.

Lemma In_dropna {A : Type} (x : A) (xs : list (option A)) :
  In x (dropna xs) <-> In (Some x) xs.
Proof.
  induction xs as [|[y|] r IH]; simpl; [reflexivity| |].
  - rewrite IH. split; intros [H|H]; auto; left; congruence.
  - rewrite IH. split; [auto|]. intros [H|H]; [discriminate|exact H].
Qed.

Lemma dropna_map_Some {A : Type} (vs : list A) : dropna (map Some vs) = vs.
Proof. induction vs as [|v r IH]; simpl; [reflexivity|now rewrite IH]. Qed.

(** [isna().sum() == 0] says no cell is missing. *)
Lemma na_free_cells {A : Type} (xs : list (option A)) :
  length (filter (fun b => b) (map is_none xs)) = 0 <-> xs = map Some (dropna xs).
Proof.
  induction xs as [|[x|] r IH]; simpl; [tauto| |].
  - rewrite IH. split; [intros H; now rewrite <- H|intros H; injection H; auto].
  - split; [discriminate|].
    intros H. destruct (dropna r); discriminate.
Qed.

Lemma fillna_present {A : Type} (v : option A) (vs : list A) :
  fillna v (map Some vs) = map Some vs.
Proof. unfold fillna. rewrite map_map. reflexivity. Qed.

Lemma fillna_complete {A : Type} (v : option A) (xs : list (option A)) :
  length (filter (fun b => b) (map is_none xs)) = 0 -> fillna v xs = xs.
Proof.
  intros H. apply na_free_cells in H. rewrite H. apply fillna_present.
Qed.

Lemma fillna_None {A : Type} (xs : list (option A)) : fillna None xs = xs.
Proof.
  unfold fillna. rewrite <- (map_id xs) at 2. apply map_ext. now intros [x|].
Qed.

Lemma fillna_Some {A : Type} (v : A) (xs : list (option A)) :
  fillna (Some v) xs = map Some (dropna (fillna (Some v) xs)).
Proof.
  induction xs as [|[x|] r IH]; simpl; [reflexivity| |]; now rewrite <- IH.
Qed.

Lemma length_fillna {A : Type} (v : option A) (xs : list (option A)) :
  length (fillna v xs) = length xs.
Proof. apply length_map. Qed.

End PdFacts.

(** ** The fallback clean, step by step *)

Module CleanFacts.
Import Pd St Dashboard Notions PdFacts.

Lemma and_then_done {A B : Type} (r : result A) (k : A -> result B) (b : B) :
  and_then r k = Done b -> exists a, r = Done a /\ k a = Done b.
Proof. destruct r as [a|e]; simpl; try discriminate. eauto. Qed.

Lemma series_done (c : string) (df : DataFrame) (s : Series) :
  series c df = Done s <-> get c df = Some s /\ count_label c df <= 1.
Proof.
  unfold series. destruct (get c df) as [s0|].
  - destruct (2 <=? count_label c df) eqn:E.
    + apply Nat.leb_le in E. split; [discriminate|]. intros [_ H]. lia.
    + apply Nat.leb_gt in E. split.
      * intros H. inversion H. split; [reflexivity|lia].
      * intros [H _]. now inversion H.
  - split; [discriminate|]. intros [H _]. discriminate.
Qed.

Lemma get_None_count (c : string) (df : DataFrame) :
  get c df = None -> count_label c df = 0.
Proof.
  unfold count_label. induction df as [|[n s] r IH]; simpl; [reflexivity|].
  rewrite (String.eqb_sym c n). destruct (String.eqb n c); [discriminate|exact IH].
Qed.

(** A guarded update that returns has assigned the updated column. *)
Lemma when_present_done (u : Series -> result Series) (c : string) (df df' : DataFrame) :
  when_present u c df = Done df' ->
  count_label c df <= 1 /\
  (forall s, get c df = Some s -> exists s', u s = Done s') /\
  df' = assign c (total u) df.
Proof.
  unfold when_present. rewrite mem_columns_get.
  destruct (get c df) as [s|] eqn:G.
  - intros H. apply and_then_done in H. destruct H as [s0 [Hs H]].
    apply series_done in Hs. destruct Hs as [Hs Hc].
    rewrite G in Hs. inversion Hs. subst s0.
    apply and_then_done in H. destruct H as [s' [Hu H]].
    inversion H. subst df'. clear H.
    split; [exact Hc|]. split.
    + intros s1 H1. try rewrite G in H1. inversion H1. subst. eauto.
    + apply assign_ext; [exact Hc|].
      intros s1 H1. try rewrite G in H1. inversion H1. subst.
      unfold total. now rewrite Hu.
  - intros H. inversion H. subst df'.
    split; [rewrite (get_None_count c df G); lia|].
    split; [intros s H1; try rewrite G in H1; discriminate|].
    symmetry. now apply assign_absent.
Qed.

Lemma when_present_run (u : Series -> result Series) (c : string) (df : DataFrame) :
  count_label c df <= 1 ->
  (forall s, get c df = Some s -> exists s', u s = Done s') ->
  when_present u c df = Done (assign c (total u) df).
Proof.
  intros Hc Hu. unfold when_present. rewrite mem_columns_get.
  destruct (get c df) as [s|] eqn:G.
  - assert (series c df = Done s) as Hs by (apply series_done; auto).
    rewrite Hs. simpl. destruct (Hu s eq_refl) as [s' Hs']. rewrite Hs'. simpl.
    f_equal. apply assign_ext; [exact Hc|].
    intros s1 H1. try rewrite G in H1. inversion H1. subst.
    unfold total. now rewrite Hs'.
  - f_equal. symmetry. now apply assign_absent.
Qed.

(** The loops of lines 29-31, 40-42, 45-47 and 48-51. *)
Lemma for_each_done (u : string -> Series -> result Series) (cs : list string)
    (df df' : DataFrame) :
  for_each cs (fun c => when_present (u c) c) df = Done df' ->
  Forall (fun c => count_label c df <= 1) cs /\
  df' = fold_left (fun d c => assign c (total (u c)) d) cs df.
Proof.
  revert df. induction cs as [|c r IH]; simpl; intros df H.
  - inversion H. auto.
  - apply and_then_done in H. destruct H as [d [Hd H]].
    apply when_present_done in Hd. destruct Hd as [Hc [_ Hd]]. subst d.
    apply IH in H. destruct H as [Hr H]. split; [|exact H].
    constructor; [exact Hc|].
    eapply Forall_impl; [|exact Hr]. intros a Ha. cbv beta in Ha.
    now rewrite count_label_assign in Ha.
Qed.

Lemma for_each_run (u : string -> Series -> result Series) (cs : list string)
    (df : DataFrame) :
  Forall (fun c => count_label c df <= 1) cs ->
  (forall c s, In c cs -> exists s', u c s = Done s') ->
  for_each cs (fun c => when_present (u c) c) df
  = Done (fold_left (fun d c => assign c (total (u c)) d) cs df).
Proof.
  revert df. induction cs as [|c r IH]; simpl; intros df Hc Hu; [reflexivity|].
  inversion Hc as [|? ? Hc1 Hc2]. subst.
  rewrite when_present_run; [simpl|exact Hc1|intros s _; apply Hu; now left].
  apply IH.
  - eapply Forall_impl; [|exact Hc2]. intros a Ha. cbv beta in Ha.
    now rewrite count_label_assign.
  - intros c' s H. apply Hu. now right.
Qed.

Lemma columns_fold_assign (f : string -> Series -> Series) (cs : list string)
    (df : DataFrame) :
  columns (fold_left (fun d c => assign c (f c) d) cs df) = columns df.
Proof.
  revert df. induction cs as [|c r IH]; simpl; intros df; [reflexivity|].
  now rewrite IH, columns_assign.
Qed.

Section Clean.
Variable to_float : string -> option Q.

Ltac concrete_column H :=
  repeat (destruct H as [H|H]; [subst; reflexivity|]); destruct H.

Ltac through_assigns :=
  cbn [fold_left map fst numeric_columns imputed_numeric_columns
       categorical_columns maps];
  rewrite ?get_assign, ?get_loc.

Lemma get_normalized_numeric (raw : DataFrame) (c : string) :
  In c numeric_columns ->
  get c (normalized_table to_float raw)
  = option_map (to_numeric to_float) (get c (rename Py.strip raw)).
Proof.
  intros H. unfold normalized_table. through_assigns.
  cbv [numeric_columns] in H. concrete_column H.
Qed.

Lemma get_normalized_categorical (raw : DataFrame) (c : string) :
  In c categorical_columns ->
  get c (normalized_table to_float raw)
  = option_map (normalized (dict_for c)) (get c (rename Py.strip raw)).
Proof.
  intros H. unfold normalized_table. through_assigns.
  cbv [categorical_columns] in H. concrete_column H.
Qed.

Lemma get_cleaned_delivery (raw : DataFrame) :
  get "Delivery_Time_min" (cleaned to_float raw)
  = option_map (take (retained to_float raw))
      (get "Delivery_Time_min" (normalized_table to_float raw)).
Proof. unfold cleaned. through_assigns. reflexivity. Qed.

Lemma get_cleaned_numeric (raw : DataFrame) (c : string) :
  In c imputed_numeric_columns ->
  get c (cleaned to_float raw)
  = option_map (total (fill_median c))
      (option_map (take (retained to_float raw))
         (get c (normalized_table to_float raw))).
Proof.
  intros H. unfold cleaned. through_assigns.
  cbv [imputed_numeric_columns] in H. concrete_column H.
Qed.

Lemma get_cleaned_categorical (raw : DataFrame) (c : string) :
  In c categorical_columns ->
  get c (cleaned to_float raw)
  = option_map (total fill_mode)
      (option_map (take (retained to_float raw))
         (get c (normalized_table to_float raw))).
Proof.
  intros H. unfold cleaned. through_assigns.
  cbv [categorical_columns] in H. concrete_column H.
Qed.

Lemma columns_normalized_table (raw : DataFrame) :
  columns (normalized_table to_float raw) = map Py.strip (columns raw).
Proof.
  unfold normalized_table. now rewrite !columns_fold_assign, columns_rename.
Qed.

Lemma columns_cleaned (raw : DataFrame) :
  columns (cleaned to_float raw) = map Py.strip (columns raw).
Proof.
  unfold cleaned.
  now rewrite !columns_fold_assign, columns_loc, columns_normalized_table.
Qed.

Lemma count_label_columns (c : string) (d d' : DataFrame) :
  columns d = columns d' -> count_label c d = count_label c d'.
Proof. unfold count_label. now intros ->. Qed.

Lemma to_numeric_NumCol (s : Series) : exists xs, to_numeric to_float s = NumCol xs.
Proof. destruct s; simpl; eauto. Qed.

Lemma fill_median_NumCol (c : string) (xs : list (option Q)) :
  exists ys, fill_median c (NumCol xs) = Done (NumCol ys).
Proof. unfold fill_median. destruct (0 <? _); eauto. Qed.

Lemma fill_mode_done (s : Series) : exists s', fill_mode s = Done s'.
Proof.
  unfold fill_mode. destruct (0 <? _); [|eauto].
  destruct s as [xs|xs]; [destruct (mode Qeq_bool Qle_bool xs)
                         |destruct (mode String.eqb String.leb xs)]; eauto.
Qed.

(** When the fallback clean returns, no required label is duplicated after
    trimming, the delivery-time column exists, and the table returned is
    [cleaned]. *)
Lemma auto_clean_done (raw df : DataFrame) :
  auto_clean to_float raw = Done df ->
  Forall (fun c => count_label c (rename Py.strip raw) <= 1) needed /\
  (exists dt, get "Delivery_Time_min" (normalized_table to_float raw) = Some dt) /\
  df = cleaned to_float raw.
Proof.
  unfold auto_clean. intros H.
  apply and_then_done in H. destruct H as [d1 [H1 H]].
  apply (for_each_done (fun _ s => Done (to_numeric to_float s))) in H1.
  destruct H1 as [C1 E1].
  apply and_then_done in H. destruct H as [d2 [H2 H]].
  apply (for_each_done (fun col s => Done (normalized (dict_for col) s))) in H2.
  destruct H2 as [C2 E2].
  apply and_then_done in H. destruct H as [dt [H3 H]].
  apply series_done in H3. destruct H3 as [G3 _].
  apply and_then_done in H. destruct H as [d4 [H4 H]].
  apply (for_each_done fill_median) in H4. destruct H4 as [_ E4].
  apply (for_each_done (fun _ => fill_mode)) in H. destruct H as [_ E5].
  assert (d2 = normalized_table to_float raw) as E by (subst d2 d1; reflexivity).
  rewrite E in *. clear E E2.
  assert (forall c, count_label c d1 = count_label c (rename Py.strip raw)) as K.
  { intros c. apply count_label_columns. subst d1. apply columns_fold_assign. }
  split; [|split].
  - cbv [numeric_columns] in C1. cbn [map fst maps] in C2.
    repeat match goal with
           | H : Forall _ (_ :: _) |- _ => inversion H; clear H; subst
           end.
    rewrite !K in *. unfold needed.
    repeat (apply Forall_cons; [assumption|]). apply Forall_nil.
  - eauto.
  - subst df d4. unfold cleaned, retained. now rewrite G3.
Qed.

Lemma auto_clean_run (raw : DataFrame) :
  Forall (fun c => count_label c (rename Py.strip raw) <= 1) needed ->
  (exists dt, get "Delivery_Time_min" (normalized_table to_float raw) = Some dt) ->
  auto_clean to_float raw = Done (cleaned to_float raw).
Proof.
  intros C [dt G]. unfold auto_clean.
  assert (forall c, In c needed -> count_label c (rename Py.strip raw) <= 1) as C'
    by (now apply Forall_forall).
  rewrite (for_each_run (fun _ s => Done (to_numeric to_float s)));
    [|apply Forall_forall; intros c Hc; apply C';
      cbv [numeric_columns In] in Hc; cbv [needed In]; tauto
     |intros; eauto].
  cbn [and_then].
  rewrite (for_each_run (fun col s => Done (normalized (dict_for col) s)));
    [|apply Forall_forall; intros c Hc;
      rewrite (count_label_columns c _ (rename Py.strip raw))
        by apply columns_fold_assign;
      apply C'; cbn [map fst maps In] in Hc; cbv [needed In]; tauto
     |intros; eauto].
  cbn [and_then].
  change (fold_left _ (map fst maps) _) with (normalized_table to_float raw).
  assert (forall c d, columns d = columns (normalized_table to_float raw) ->
                      In c needed -> count_label c d <= 1) as K.
  { intros c d Hd Hc. rewrite (count_label_columns c d (rename Py.strip raw)).
    - now apply C'.
    - rewrite Hd, columns_normalized_table, columns_rename. reflexivity. }
  assert (series "Delivery_Time_min" (normalized_table to_float raw) = Done dt) as S.
  { apply series_done. split; [exact G|]. apply K; [reflexivity|]. cbv [needed In]; tauto. }
  rewrite S. cbn [and_then].
  change (map negb (isna dt)) with
    (match Some dt with Some dt => map negb (isna dt) | None => [] end).
  rewrite <- G. fold (retained to_float raw).
  cbn [for_each imputed_numeric_columns].
  rewrite when_present_run; cycle 1.
  { apply K; [apply columns_loc|cbv [needed In]; tauto]. }
  { intros s. rewrite get_loc, get_normalized_numeric by (cbv [numeric_columns In]; tauto).
    destruct (get _ (rename Py.strip raw)) as [s0|]; [|discriminate].
    simpl. destruct (to_numeric_NumCol s0) as [xs ->]. intros E.
    inversion E. simpl. destruct (fill_median_NumCol "Distance_km"
                                   (compress (retained to_float raw) xs)) as [ys ->].
    eauto. }
  cbn [and_then].
  rewrite when_present_run; cycle 1.
  { apply K; [now rewrite columns_assign, columns_loc|cbv [needed In]; tauto]. }
  { intros s. rewrite get_assign, get_loc, get_normalized_numeric by (cbv [numeric_columns In]; tauto).
    cbn [String.eqb Ascii.eqb Bool.eqb].
    destruct (get _ (rename Py.strip raw)) as [s0|]; [|discriminate].
    simpl. destruct (to_numeric_NumCol s0) as [xs ->]. intros E.
    inversion E. simpl. destruct (fill_median_NumCol "Courier_Experience_yrs"
                                   (compress (retained to_float raw) xs)) as [ys ->].
    eauto. }
  cbn [and_then].
  rewrite (for_each_run (fun _ => fill_mode)).
  - reflexivity.
  - apply Forall_forall. intros c Hc. apply K.
    + now rewrite !columns_assign, columns_loc.
    + cbv [categorical_columns In] in Hc. cbv [needed In]. tauto.
  - intros c s _. apply fill_mode_done.
Qed.

End Clean.

End CleanFacts.

(** ** Categorical normalization (line 42) *)

Module NormalizeFacts.
Import Pd St Dashboard Notions Samples PdFacts CleanFacts.

Lemma normalized_cells (mp : list (string * string)) (xs : list (option string)) :
  normalized mp (ObjCol xs) = ObjCol (map (norm_cell mp) xs).
Proof.
  simpl. f_equal. unfold map_dict, norm. rewrite map_map.
  induction xs as [|x r IH]; simpl; [reflexivity|].
  rewrite IH. unfold norm_cell.
  destruct (Py.dict_get _ mp); [reflexivity|]. now destruct x.
Qed.

Lemma nan_is_no_key (c : string) :
  In c categorical_columns -> norm_cell (dict_for c) None = None.
Proof.
  intros H. cbv [categorical_columns In] in H.
  repeat (destruct H as [H|H]; [subst; reflexivity|]). destruct H.
Qed.

(** Every label of the four dicts normalizes to its own key. *)
Lemma labels_fixed (c : string) (k label : string) :
  Py.dict_get k (dict_for c) = Some label ->
  Py.dict_get (Py.lower (Py.strip label)) (dict_for c) = Some label.
Proof.
  assert (forall mp : list (string * string),
            forallb (fun kv => match Py.dict_get (Py.lower (Py.strip (snd kv))) mp with
                               | Some l => String.eqb l (snd kv)
                               | None => false
                               end) mp = true ->
            Py.dict_get k mp = Some label ->
            Py.dict_get (Py.lower (Py.strip label)) mp = Some label) as G.
  { intros mp F H. apply PyFacts.dict_get_In in H.
    rewrite forallb_forall in F. specialize (F _ H). simpl in F.
    destruct (Py.dict_get _ mp) as [l|]; [|discriminate].
    apply String.eqb_eq in F. now subst. }
  unfold dict_for.
  destruct (Py.dict_get c maps) as [mp|] eqn:E; [|discriminate].
  apply PyFacts.dict_get_In in E. apply G.
  cbv [maps In] in E.
  repeat (destruct E as [E|E]; [inversion E; subst; reflexivity|]). destruct E.
Qed.

Lemma norm_cell_idem (c : string) (x : option string) :
  In c categorical_columns ->
  norm_cell (dict_for c) (norm_cell (dict_for c) x) = norm_cell (dict_for c) x.
Proof.
  intros Hc. unfold norm_cell at 2 3.
  destruct (Py.dict_get _ (dict_for c)) as [label|] eqn:E.
  - unfold norm_cell. simpl astype_str. now rewrite (labels_fixed c _ _ E).
  - unfold norm_cell. now rewrite E.
Qed.

(** C1, as the code has it: on the auto-clean path line 42 turns a raw
    categorical cell whose trimmed, lower-cased text is a key of the
    column's dict into the canonical label, and leaves every other cell as
    it was, raw text included; a missing cell stays missing.  Nothing is
    raised. *)
Theorem C1_normalized_label_or_raw (c : string) (xs : list (option string)) :
  In c categorical_columns ->
  exists ys,
    normalized (dict_for c) (ObjCol xs) = ObjCol ys /\
    Forall2
      (fun x y =>
         match Py.dict_get (Py.lower (Py.strip (astype_str x))) (dict_for c) with
         | Some label => y = Some label /\ In label (canonical (dict_for c))
         | None => y = x
         end /\ (x = None -> y = None))
      xs ys.
Proof.
  intros Hc. exists (map (norm_cell (dict_for c)) xs).
  split; [apply normalized_cells|].
  induction xs as [|x r IH]; simpl; constructor; [|exact IH].
  split.
  - unfold norm_cell.
    destruct (Py.dict_get _ (dict_for c)) as [label|] eqn:E; [|reflexivity].
    split; [reflexivity|].
    apply PyFacts.dict_get_In in E. unfold canonical.
    now apply (in_map snd) in E.
  - intros ->. now apply nan_is_no_key.
Qed.

Lemma C1_normalized_label_or_raw_witness :
  In "Weather" categorical_columns /\
  exists ys,
    normalized (dict_for "Weather") (ObjCol [Some " RAINY "; Some "storm"; None])
    = ObjCol ys /\
    Forall2
      (fun x y =>
         match Py.dict_get (Py.lower (Py.strip (astype_str x))) (dict_for "Weather") with
         | Some label => y = Some label /\ In label (canonical (dict_for "Weather"))
         | None => y = x
         end /\ (x = None -> y = None))
      [Some " RAINY "; Some "storm"; None] ys.
Proof.
  assert (In "Weather" categorical_columns) as H by (simpl; tauto).
  split; [exact H|].
  exact (C1_normalized_label_or_raw "Weather" [Some " RAINY "; Some "storm"; None] H).
Defined.

(** C1 as stated fails: on the auto-clean path the unmapped value "storm"
    is neither turned into a missing marker nor into a canonical label; it
    keeps its raw text in the table [load_data] returns. *)
Lemma C1_unmapped_value_keeps_raw_text :
  load_data plain (only_raw untidy_raw) = ([], Returned (untidy_cleaned, RAW_auto_clean)) /\
  get "Weather" untidy_cleaned = Some (ObjCol [Some "Rainy"; Some "storm"; Some "Rainy"]) /\
  Py.dict_get (Py.lower (Py.strip "storm")) (dict_for "Weather") = None /\
  ~ In "storm" (canonical (dict_for "Weather")).
Proof.
  split; [vm_compute; reflexivity|].
  split; [reflexivity|]. split; [reflexivity|].
  simpl. intros H.
  repeat (destruct H as [H|H]; [discriminate|]). exact H.
Qed.

End NormalizeFacts.

(** ** What [load_data] returns on the auto-clean path *)

Module LoadFacts.
Import Pd St Dashboard Notions Samples PdFacts CleanFacts.

Lemma total_fill_median (c : string) (xs : list (option Q)) :
  total (fill_median c) (NumCol xs) = NumCol (fillna (median xs) xs).
Proof.
  unfold total, fill_median. destruct (0 <? na_count (NumCol xs)) eqn:E; [reflexivity|].
  apply Nat.ltb_ge in E. assert (na_count (NumCol xs) = 0) as E0 by lia.
  now rewrite (fillna_complete _ xs E0).
Qed.

Lemma total_fill_mode_text (xs : list (option string)) :
  total fill_mode (ObjCol xs)
  = ObjCol (fillna (hd_error (mode String.eqb String.leb xs)) xs).
Proof.
  unfold total, fill_mode. destruct (0 <? na_count (ObjCol xs)) eqn:E.
  - destruct (mode String.eqb String.leb xs); simpl; [now rewrite fillna_None|reflexivity].
  - apply Nat.ltb_ge in E. assert (na_count (ObjCol xs) = 0) as E0 by lia.
    now rewrite (fillna_complete _ xs E0).
Qed.

Lemma total_fill_mode_number (xs : list (option Q)) :
  total fill_mode (NumCol xs)
  = NumCol (fillna (hd_error (mode Qeq_bool Qle_bool xs)) xs).
Proof.
  unfold total, fill_mode. destruct (0 <? na_count (NumCol xs)) eqn:E.
  - destruct (mode Qeq_bool Qle_bool xs); simpl; [now rewrite fillna_None|reflexivity].
  - apply Nat.ltb_ge in E. assert (na_count (NumCol xs) = 0) as E0 by lia.
    now rewrite (fillna_complete _ xs E0).
Qed.

Section Load.
Variable to_float : string -> option Q.

(** [load_data] tags a table "RAW (auto-clean)" only when the clean file is
    absent, the raw file is there and its fallback clean returned. *)
Lemma load_data_raw (dir : folder) (log : list event) (df : DataFrame) :
  load_data to_float dir = (log, Returned (df, RAW_auto_clean)) ->
  exists raw,
    Food_Delivery_Times_CLEAN_csv dir = None /\
    Food_Delivery_Times_csv dir = Some raw /\
    auto_clean to_float raw = Done df.
Proof.
  unfold load_data.
  destruct (Food_Delivery_Times_CLEAN_csv dir) as [d|]; [discriminate|].
  destruct (Food_Delivery_Times_csv dir) as [raw|]; [|discriminate].
  unfold bind, lift, ret. simpl.
  destruct (auto_clean to_float raw) as [d|e] eqn:E; simpl; try discriminate.
  intros H. inversion H. subst. exists raw. repeat split. exact E.
Qed.

Lemma delivery_coerced (raw : DataFrame) (s : Series) :
  get "Delivery_Time_min" (normalized_table to_float raw) = Some s ->
  exists dt, s = NumCol dt.
Proof.
  rewrite get_normalized_numeric by (cbv [numeric_columns In]; tauto).
  destruct (get _ (rename Py.strip raw)) as [s0|]; [|discriminate].
  simpl. intros H. inversion H. apply to_numeric_NumCol.
Qed.

(** C3: in a table [load_data] produced on the auto-clean path the
    delivery-time column has no missing cell.  It holds exactly the present
    values of the coerced raw column, in order: rows without a delivery
    time are dropped and no delivery time is filled in. *)
Theorem C3_delivery_time_present (dir : folder) (log : list event) (df : DataFrame) :
  load_data to_float dir = (log, Returned (df, RAW_auto_clean)) ->
  exists raw dt out,
    Food_Delivery_Times_csv dir = Some raw /\
    get "Delivery_Time_min" (normalized_table to_float raw) = Some (NumCol dt) /\
    get "Delivery_Time_min" df = Some (NumCol out) /\
    out = map Some (dropna dt) /\
    Forall (fun t => t <> None) out.
Proof.
  intros H. apply load_data_raw in H. destruct H as [raw [_ [Hraw H]]].
  apply auto_clean_done in H. destruct H as [_ [[s G] ->]].
  destruct (delivery_coerced raw s G) as [dt ->].
  exists raw, dt, (map Some (dropna dt)).
  split; [exact Hraw|]. split; [exact G|]. split; [|split; [reflexivity|]].
  - rewrite get_cleaned_delivery, G. unfold retained. rewrite G. simpl.
    now rewrite compress_notna.
  - apply Forall_forall. intros t Ht. apply in_map_iff in Ht.
    destruct Ht as [v [<- _]]. discriminate.
Qed.

(** C10: on the auto-clean path the rows without a delivery time are
    removed first.  The value written into the missing cells of distance
    and of courier experience is the median of the retained column, and the
    value written into a categorical column is the first entry of the mode
    of the retained column; a removed row enters neither. *)
Theorem C10_fill_values_from_retained_rows (dir : folder) (log : list event)
    (df : DataFrame) :
  load_data to_float dir = (log, Returned (df, RAW_auto_clean)) ->
  exists raw dt,
    Food_Delivery_Times_csv dir = Some raw /\
    get "Delivery_Time_min" (normalized_table to_float raw) = Some dt /\
    let keep := map negb (isna dt) in
    (forall c s, In c imputed_numeric_columns ->
       get c (normalized_table to_float raw) = Some s ->
       exists xs, take keep s = NumCol xs /\
                  get c df = Some (NumCol (fillna (median xs) xs))) /\
    (forall c s, In c categorical_columns ->
       get c (normalized_table to_float raw) = Some s ->
       match take keep s with
       | ObjCol xs =>
           get c df = Some (ObjCol (fillna (hd_error (mode String.eqb String.leb xs)) xs))
       | NumCol xs =>
           get c df = Some (NumCol (fillna (hd_error (mode Qeq_bool Qle_bool xs)) xs))
       end).
Proof.
  intros H. apply load_data_raw in H. destruct H as [raw [_ [Hraw H]]].
  apply auto_clean_done in H. destruct H as [_ [[dt G] ->]].
  exists raw, dt. split; [exact Hraw|]. split; [exact G|].
  assert (retained to_float raw = map negb (isna dt)) as R
    by (unfold retained; now rewrite G).
  cbv zeta. split.
  - intros c s Hc Hs.
    assert (exists xs0, s = NumCol xs0) as [xs0 ->].
    { rewrite get_normalized_numeric in Hs
        by (cbv [imputed_numeric_columns In] in Hc; cbv [numeric_columns In]; tauto).
      destruct (get _ (rename Py.strip raw)) as [s0|]; [|discriminate].
      simpl in Hs. inversion Hs. apply to_numeric_NumCol. }
    exists (compress (map negb (isna dt)) xs0). split; [reflexivity|].
    rewrite get_cleaned_numeric, Hs, R by exact Hc. simpl.
    now rewrite total_fill_median.
  - intros c s Hc Hs.
    rewrite get_cleaned_categorical, Hs, R by exact Hc.
    destruct s as [xs|xs]; simpl.
    + now rewrite total_fill_mode_number.
    + now rewrite total_fill_mode_text.
Qed.

End Load.

Lemma C3_delivery_time_present_witness :
  load_data plain (only_raw untidy_raw) = ([], Returned (untidy_cleaned, RAW_auto_clean)) /\
  exists raw dt out,
    Food_Delivery_Times_csv (only_raw untidy_raw) = Some raw /\
    get "Delivery_Time_min" (normalized_table plain raw) = Some (NumCol dt) /\
    get "Delivery_Time_min" untidy_cleaned = Some (NumCol out) /\
    out = map Some (dropna dt) /\
    Forall (fun t => t <> None) out.
Proof.
  assert (load_data plain (only_raw untidy_raw)
          = ([], Returned (untidy_cleaned, RAW_auto_clean))) as H
    by (vm_compute; reflexivity).
  split; [exact H|].
  exact (C3_delivery_time_present plain (only_raw untidy_raw) [] untidy_cleaned H).
Defined.

Lemma C10_fill_values_from_retained_rows_witness :
  load_data plain (only_raw untidy_raw) = ([], Returned (untidy_cleaned, RAW_auto_clean)) /\
  exists raw dt,
    Food_Delivery_Times_csv (only_raw untidy_raw) = Some raw /\
    get "Delivery_Time_min" (normalized_table plain raw) = Some dt /\
    let keep := map negb (isna dt) in
    (forall c s, In c imputed_numeric_columns ->
       get c (normalized_table plain raw) = Some s ->
       exists xs, take keep s = NumCol xs /\
                  get c untidy_cleaned = Some (NumCol (fillna (median xs) xs))) /\
    (forall c s, In c categorical_columns ->
       get c (normalized_table plain raw) = Some s ->
       match take keep s with
       | ObjCol xs =>
           get c untidy_cleaned
           = Some (ObjCol (fillna (hd_error (mode String.eqb String.leb xs)) xs))
       | NumCol xs =>
           get c untidy_cleaned
           = Some (NumCol (fillna (hd_error (mode Qeq_bool Qle_bool xs)) xs))
       end).
Proof.
  assert (load_data plain (only_raw untidy_raw)
          = ([], Returned (untidy_cleaned, RAW_auto_clean))) as H
    by (vm_compute; reflexivity).
  split; [exact H|].
  exact (C10_fill_values_from_retained_rows plain (only_raw untidy_raw) []
           untidy_cleaned H).
Defined.

End LoadFacts.

(** ** Running the fallback clean on its own output *)

Module IdempotenceFacts.
Import Pd St Dashboard Notions Samples PdFacts CleanFacts NormalizeFacts LoadFacts.

Lemma fold_assign_same (f : string -> Series -> Series) (cs : list string)
    (df : DataFrame) :
  (forall c, In c cs -> count_label c df <= 1) ->
  (forall c s, In c cs -> get c df = Some s -> f c s = s) ->
  fold_left (fun d c => assign c (f c) d) cs df = df.
Proof.
  induction cs as [|c r IH]; simpl; intros Hc Hf; [reflexivity|].
  rewrite assign_same; [|apply Hc; now left|intros s; apply Hf; now left].
  apply IH; intros; [apply Hc|eapply Hf]; eauto.
Qed.

Lemma loc_all (n : nat) (df : DataFrame) :
  Forall (fun ns => size (snd ns) <= n) df -> loc (repeat true n) df = df.
Proof.
  unfold loc. induction 1 as [|[c s] r H _ IH]; simpl; [reflexivity|].
  rewrite IH. f_equal. f_equal.
  destruct s as [xs|xs]; simpl in *; now rewrite compress_all.
Qed.

Lemma notna_present {A : Type} (vs : list A) :
  map negb (map is_none (map Some vs)) = repeat true (length vs).
Proof. induction vs as [|v r IH]; simpl; [reflexivity|now rewrite IH]. Qed.

(** Filling a column a second time, with a value computed from the filled
    column, changes nothing. *)
Lemma fillna_again {A : Type} (g : list (option A) -> option A) (xs : list (option A)) :
  fillna (g (fillna (g xs) xs)) (fillna (g xs) xs) = fillna (g xs) xs.
Proof.
  destruct (g xs) as [v|] eqn:E.
  - rewrite (fillna_Some v xs). apply fillna_present.
  - rewrite !fillna_None, E. apply fillna_None.
Qed.

Lemma size_total_fill_median (c : string) (s : Series) :
  size (total (fill_median c) s) = size s.
Proof.
  destruct s as [xs|xs].
  - rewrite total_fill_median. simpl. apply length_fillna.
  - unfold total, fill_median. now destruct (0 <? _).
Qed.

Lemma size_total_fill_mode (s : Series) : size (total fill_mode s) = size s.
Proof.
  destruct s as [xs|xs].
  - rewrite total_fill_mode_number. simpl. apply length_fillna.
  - rewrite total_fill_mode_text. simpl. apply length_fillna.
Qed.

Lemma Forall_size_assign (n : nat) (c : string) (f : Series -> Series) (df : DataFrame) :
  (forall s, size (f s) = size s) ->
  Forall (fun ns => size (snd ns) <= n) df ->
  Forall (fun ns => size (snd ns) <= n) (assign c f df).
Proof.
  intros Hf H. unfold assign. apply Forall_forall. intros ns Hns.
  apply in_map_iff in Hns. destruct Hns as [[c0 s0] [E Hin]].
  rewrite Forall_forall in H. specialize (H _ Hin). simpl in *.
  destruct (String.eqb c0 c); subst ns; simpl; [rewrite Hf|]; exact H.
Qed.

Lemma Forall_size_loc (mask : list bool) (df : DataFrame) :
  Forall (fun ns => size (snd ns) <= length (filter (fun b => b) mask)) (loc mask df).
Proof.
  unfold loc. apply Forall_forall. intros ns Hns.
  apply in_map_iff in Hns. destruct Hns as [[c0 s0] [E _]]. subst ns. simpl.
  destruct s0 as [xs|xs]; simpl; apply length_compress.
Qed.

Section Mode.
Context {A : Type} (eqb leb : A -> A -> bool).

Lemma In_unique_from (seen xs : list A) (x : A) :
  In x (unique_from eqb seen xs) -> In x xs.
Proof.
  revert seen. induction xs as [|y r IH]; simpl; intros seen; [tauto|].
  destruct (existsb (eqb y) seen).
  - intros H. right. now apply (IH seen).
  - intros [H|H]; [now left|right; now apply (IH (y :: seen))].
Qed.

(** The value [m.iloc[0]] of a mode occurs in the column. *)
Lemma mode_head_In (xs : list (option A)) (m : A) :
  hd_error (mode eqb leb xs) = Some m -> In (Some m) xs.
Proof.
  unfold mode. intros H.
  assert (In m (Py.sorted leb
            (filter (fun v => occurrences eqb v (dropna xs) =?
                              fold_right Nat.max 0
                                (map (fun v0 => occurrences eqb v0 (dropna xs)) (dropna xs)))
               (unique eqb (dropna xs))))) as Hin.
  { destruct (Py.sorted leb _) as [|h t]; [discriminate|].
    inversion H. now left. }
  apply PyFacts.In_sorted in Hin. apply filter_In in Hin. destruct Hin as [Hin _].
  apply In_unique_from in Hin. now apply In_dropna.
Qed.
End Mode.

Section Again.
Variable to_float : string -> option Q.

Lemma cleaned_delivery (raw : DataFrame) (dt : list (option Q)) :
  get "Delivery_Time_min" (normalized_table to_float raw) = Some (NumCol dt) ->
  retained to_float raw = map negb (map is_none dt) /\
  get "Delivery_Time_min" (cleaned to_float raw) = Some (NumCol (map Some (dropna dt))).
Proof.
  intros G. assert (retained to_float raw = map negb (map is_none dt)) as R
    by (unfold retained; now rewrite G).
  split; [exact R|].
  rewrite get_cleaned_delivery, G, R. simpl. now rewrite compress_notna.
Qed.

Lemma cleaned_numeric_column (raw : DataFrame) (c : string) (s : Series) :
  In c imputed_numeric_columns ->
  get c (cleaned to_float raw) = Some s ->
  exists xs, s = NumCol (fillna (median xs) xs).
Proof.
  intros Hc. rewrite get_cleaned_numeric by exact Hc.
  rewrite get_normalized_numeric
    by (cbv [imputed_numeric_columns In] in Hc; cbv [numeric_columns In]; tauto).
  destruct (get c (rename Py.strip raw)) as [s0|]; [|discriminate].
  simpl. destruct (to_numeric_NumCol to_float s0) as [xs ->]. simpl.
  rewrite total_fill_median. intros H. inversion H. eauto.
Qed.

Lemma cleaned_categorical_column (raw : DataFrame) (c : string) (s : Series) :
  In c categorical_columns ->
  get c (cleaned to_float raw) = Some s ->
  (exists xs, s = NumCol (fillna (hd_error (mode Qeq_bool Qle_bool xs)) xs)) \/
  (exists xs, s = ObjCol (fillna (hd_error (mode String.eqb String.leb xs)) xs) /\
              Forall (fun x => norm_cell (dict_for c) x = x) xs).
Proof.
  intros Hc. rewrite get_cleaned_categorical by exact Hc.
  rewrite get_normalized_categorical by exact Hc.
  destruct (get c (rename Py.strip raw)) as [[xs|xs]|]; [| |discriminate].
  - simpl. rewrite total_fill_mode_number. intros H. inversion H. left. eauto.
  - cbn [option_map]. rewrite normalized_cells. cbn [take].
    rewrite total_fill_mode_text.
    intros H. inversion H. right. eexists. split; [reflexivity|].
    apply Forall_forall. intros x Hx. apply In_compress in Hx.
    apply in_map_iff in Hx. destruct Hx as [x0 [<- _]].
    now apply norm_cell_idem.
Qed.

Lemma normalized_fixed (mp : list (string * string)) (xs : list (option string)) :
  Forall (fun x => norm_cell mp x = x) xs -> normalized mp (ObjCol xs) = ObjCol xs.
Proof.
  intros H. rewrite normalized_cells. f_equal.
  induction H as [|x r Hx _ IH]; simpl; [reflexivity|]. now rewrite Hx, IH.
Qed.

Lemma Forall_fillna {A : Type} (P : option A -> Prop) (v : option A)
    (xs : list (option A)) :
  (v <> None -> P v) -> Forall P xs -> Forall P (fillna v xs).
Proof.
  intros Hv H. unfold fillna. induction H as [|x r Hx _ IH]; simpl; constructor;
    try exact IH.
  destruct x; [exact Hx|]. destruct v; [apply Hv; discriminate|exact Hx].
Qed.

(** C4: the fallback clean is idempotent.  When it returns a table for a
    raw table, running it on that table returns the same table: trimming
    the names, coercing the numeric columns, mapping the categorical
    columns, dropping the rows without delivery time and the median and
    mode fills all leave it as it is. *)
Theorem C4_auto_clean_idempotent (raw df : DataFrame) :
  auto_clean to_float raw = Done df ->
  auto_clean to_float df = Done df.
Proof.
  intros H. apply auto_clean_done in H. destruct H as [C [[s G] ->]].
  destruct (delivery_coerced to_float raw s G) as [dt ->].
  destruct (cleaned_delivery raw dt G) as [RT GD].
  set (df := cleaned to_float raw) in *.
  assert (columns df = columns (rename Py.strip raw)) as HC
    by (unfold df; now rewrite columns_cleaned, columns_rename).
  assert (rename Py.strip df = df) as R.
  { apply rename_same. rewrite HC, columns_rename. apply Forall_forall.
    intros n Hn. apply in_map_iff in Hn. destruct Hn as [n0 [<- _]].
    apply PyFacts.strip_idem. }
  assert (forall c, In c needed -> count_label c df <= 1) as K.
  { intros c Hc. rewrite (count_label_columns c df _ HC).
    rewrite Forall_forall in C. now apply C. }
  assert (normalized_table to_float df = df) as N.
  { unfold normalized_table. rewrite R.
    rewrite (fold_assign_same (fun _ => to_numeric to_float)).
    - apply (fold_assign_same (fun c => normalized (dict_for c))).
      + intros c Hc. apply K. cbn [map fst maps In] in Hc. cbv [needed In]. tauto.
      + intros c x Hc Hx. change (In c categorical_columns) in Hc.
        destruct (cleaned_categorical_column raw c x Hc Hx)
          as [[xs ->]|[xs [-> F]]]; [reflexivity|].
        apply normalized_fixed. apply Forall_fillna; [|exact F].
        destruct (hd_error _) as [m|] eqn:E; [intros _|congruence].
        apply mode_head_In in E. rewrite Forall_forall in F. now apply F.
    - intros c Hc. apply K. cbv [numeric_columns In] in Hc. cbv [needed In]. tauto.
    - intros c x Hc Hx. cbv [numeric_columns In] in Hc.
      destruct Hc as [<-|[<-|[<-|[]]]].
      + destruct (cleaned_numeric_column raw "Distance_km" x
                    ltac:(cbv [imputed_numeric_columns In]; tauto) Hx) as [xs ->].
        reflexivity.
      + destruct (cleaned_numeric_column raw "Courier_Experience_yrs" x
                    ltac:(cbv [imputed_numeric_columns In]; tauto) Hx) as [xs ->].
        reflexivity.
      + fold df in GD. rewrite GD in Hx. inversion Hx. reflexivity. }
  assert (retained to_float df = repeat true (length (dropna dt))) as RT'.
  { unfold retained. rewrite N. fold df in GD. rewrite GD. simpl.
    apply notna_present. }
  assert (Forall (fun ns => size (snd ns) <= length (dropna dt)) df) as SZ.
  { unfold df, cleaned. cbn [fold_left imputed_numeric_columns categorical_columns].
    repeat (apply Forall_size_assign;
            [first [apply size_total_fill_mode|apply size_total_fill_median]|]).
    rewrite RT, <- (length_notna dt). apply Forall_size_loc. }
  assert (cleaned to_float df = df) as CL.
  { unfold cleaned. rewrite N, RT', (loc_all _ df SZ).
    rewrite (fold_assign_same (fun c => total (fill_median c))).
    - apply (fold_assign_same (fun _ => total fill_mode)).
      + intros c Hc. apply K. cbv [categorical_columns In] in Hc. cbv [needed In]. tauto.
      + intros c x Hc Hx.
        destruct (cleaned_categorical_column raw c x Hc Hx)
          as [[xs ->]|[xs [-> _]]].
        * rewrite total_fill_mode_number. f_equal.
          apply (fillna_again (fun ys => hd_error (mode Qeq_bool Qle_bool ys))).
        * rewrite total_fill_mode_text. f_equal.
          apply (fillna_again (fun ys => hd_error (mode String.eqb String.leb ys))).
    - intros c Hc. apply K. cbv [imputed_numeric_columns In] in Hc. cbv [needed In]. tauto.
    - intros c x Hc Hx.
      destruct (cleaned_numeric_column raw c x Hc Hx) as [xs ->].
      rewrite total_fill_median. f_equal. apply (fillna_again median). }
  rewrite <- CL at 2. apply auto_clean_run.
  - rewrite R. apply Forall_forall. exact K.
  - rewrite N. fold df in GD. eauto.
Qed.

End Again.

Lemma C4_auto_clean_idempotent_witness :
  auto_clean plain untidy_raw = Done untidy_cleaned /\
  auto_clean plain untidy_cleaned = Done untidy_cleaned.
Proof.
  assert (auto_clean plain untidy_raw = Done untidy_cleaned) as H
    by (vm_compute; reflexivity).
  split; [exact H|].
  exact (C4_auto_clean_idempotent plain untidy_raw untidy_cleaned H).
Defined.

End IdempotenceFacts.

(** ** Startup: the source resolver and the required-column check *)

Module StartupFacts.
Import Pd St Dashboard Notions Samples PdFacts CleanFacts.

(** C9: when the pre-cleaned file exists, [load_data] returns its parsed
    table as it is, tagged CLEAN, whatever the raw file holds; the run then
    goes on exactly when no required column is absent, and this column
    check is all that is checked.  So a pre-cleaned file can bring a
    missing delivery time, a label outside the canonical set and a text
    token in a numeric column into the table the page works on. *)
Theorem C9_clean_file_taken_as_is :
  (forall (to_float : string -> option Q) (df : DataFrame) (raw : option DataFrame),
     let dir := {| Food_Delivery_Times_CLEAN_csv := Some df;
                   Food_Delivery_Times_csv := raw |} in
     load_data to_float dir = ([], Returned (df, CLEAN)) /\
     startup to_float dir
     = match missing df with
       | [] => ([], Returned (df, CLEAN))
       | m => ([Error (RequiredFieldsMissing m)], Stopped)
       end) /\
  (forall to_float : string -> option Q,
     startup to_float (only_clean dirty_clean) = ([], Returned (dirty_clean, CLEAN))) /\
  get "Delivery_Time_min" dirty_clean = Some (NumCol [None; Some 45%Q]) /\
  get "Weather" dirty_clean = Some (ObjCol [Some "storm"; Some " RAINY "]) /\
  ~ In "storm" (canonical (dict_for "Weather")) /\
  get "Distance_km" dirty_clean = Some (ObjCol [Some "far"; Some "3"]).
Proof.
  split; [|split; [|split; [|split; [|split]]]]; try reflexivity.
  - intros to_float df raw. cbv zeta. split; [reflexivity|].
    unfold startup, load_data, bind, ret, emit, stop. simpl.
    now destruct (missing df).
  - simpl. intros H. repeat (destruct H as [H|H]; [discriminate|]). exact H.
Qed.

Lemma C9_clean_file_taken_as_is_witness :
  load_data plain {| Food_Delivery_Times_CLEAN_csv := Some dirty_clean;
                     Food_Delivery_Times_csv := Some untidy_raw |}
  = ([], Returned (dirty_clean, CLEAN)) /\
  startup plain (only_clean dirty_clean) = ([], Returned (dirty_clean, CLEAN)).
Proof.
  split.
  - exact (proj1 (proj1 C9_clean_file_taken_as_is plain dirty_clean (Some untidy_raw))).
  - exact (proj1 (proj2 C9_clean_file_taken_as_is) plain).
Defined.

(** C6, the failing run: with no pre-cleaned file and a raw file that has
    no delivery-time column, line 43 raises [KeyError] inside [load_data];
    no message naming the missing field is shown and the run does not go
    on. *)
Theorem C6_missing_delivery_column_raises :
  missing no_delivery_raw = ["Delivery_Time_min"] /\
  startup plain (only_raw no_delivery_raw) = ([], Uncaught (KeyError "Delivery_Time_min")) /\
  (forall widgets,
     main plain (only_raw no_delivery_raw) widgets
     = ([], Uncaught (KeyError "Delivery_Time_min"))).
Proof. repeat split. Qed.

(** The two halts of startup, as the code shows them. *)
Lemma startup_no_source (to_float : string -> option Q) :
  startup to_float {| Food_Delivery_Times_CLEAN_csv := None;
                      Food_Delivery_Times_csv := None |}
  = ([Error PutSourceFile], Stopped).
Proof. reflexivity. Qed.

Lemma startup_stopped (to_float : string -> option Q) (dir : folder) (log : list event) :
  startup to_float dir = (log, Stopped) ->
  (Food_Delivery_Times_CLEAN_csv dir = None /\ Food_Delivery_Times_csv dir = None /\
   log = [Error PutSourceFile]) \/
  (exists df tag m, load_data to_float dir = ([], Returned (df, tag)) /\
                    missing df = m /\ m <> [] /\
                    log = [Error (RequiredFieldsMissing m)]).
Proof.
  unfold startup, load_data.
  destruct (Food_Delivery_Times_CLEAN_csv dir) as [df|].
  - unfold bind, ret, emit, stop. simpl.
    destruct (missing df) as [|c m] eqn:E; simpl; [discriminate|].
    intros H. inversion H. right. exists df, CLEAN, (c :: m).
    repeat split; try assumption. discriminate.
  - destruct (Food_Delivery_Times_csv dir) as [raw|].
    + unfold bind, ret, emit, stop, lift. simpl.
      destruct (auto_clean to_float raw) as [df|e]; simpl; try discriminate.
      destruct (missing df) as [|c m] eqn:E; simpl; [discriminate|].
      intros H. inversion H. right. exists df, RAW_auto_clean, (c :: m).
      repeat split; try assumption. discriminate.
    + intros H. inversion H. left. repeat split.
Qed.

End StartupFacts.

(** ** The sidebar filter *)

Module FilterFacts.
Import Pd St Dashboard Notions Samples PdFacts CleanFacts.

Lemma Qle_bool_refl (x : Q) : Qle_bool x x = true.
Proof. apply Qle_bool_iff. apply Qle_refl. Qed.

Lemma Qeq_bool_refl' (x : Q) : Qeq_bool x x = true.
Proof. apply Qeq_bool_iff. reflexivity. Qed.

(** *** The widgets' defaults select every complete row *)

Lemma map_all_true {A : Type} (f : A -> bool) (l : list A) :
  (forall a, In a l -> f a = true) -> map f l = repeat true (length l).
Proof.
  induction l as [|x r IH]; simpl; intros H; [reflexivity|].
  f_equal; [apply H; now left|]. apply IH. intros a Ha. apply H. now right.
Qed.

Section Options.
Context {A : Type} (eqb leb : A -> A -> bool).
Hypothesis eqb_refl : forall a, eqb a a = true.

Lemma unique_from_covers (seen xs : list A) (a : A) :
  In a xs ->
  existsb (eqb a) seen = true \/ existsb (eqb a) (unique_from eqb seen xs) = true.
Proof.
  revert seen. induction xs as [|x r IH]; simpl; intros seen H; [tauto|].
  destruct H as [->|H].
  - destruct (existsb (eqb a) seen) eqn:E; [now left|].
    right. simpl. now rewrite eqb_refl.
  - destruct (existsb (eqb x) seen) eqn:E.
    + now apply IH.
    + destruct (IH (x :: seen) H) as [H'|H'].
      * simpl in H'. simpl. destruct (eqb a x); [now right|now left].
      * right. simpl. rewrite H'. apply orb_true_r.
Qed.

(** Every present value of a column is among its sorted unique values. *)
Lemma isin_own_values (vs : list A) :
  map (isin eqb (Py.sorted leb (unique eqb (dropna (map Some vs))))) (map Some vs)
  = repeat true (length (map Some vs)).
Proof.
  rewrite dropna_map_Some, length_map, map_map.
  assert (forall a, In a vs ->
            isin eqb (Py.sorted leb (unique eqb vs)) (Some a) = true) as H.
  { intros a Ha. simpl. rewrite PyFacts.existsb_sorted.
    destruct (unique_from_covers [] vs a Ha) as [H|H]; [discriminate|exact H]. }
  now apply map_all_true.
Qed.
End Options.

Lemma qmin_le (a b : Q) : Qle_bool (qmin a b) a = true /\ Qle_bool (qmin a b) b = true.
Proof.
  unfold qmin. destruct (Qle_bool a b) eqn:E.
  - split; [apply Qle_bool_refl|exact E].
  - split; [|apply Qle_bool_refl].
    apply Qle_bool_iff. apply Qlt_le_weak. apply Qnot_le_lt.
    intros H. apply Qle_bool_iff in H. congruence.
Qed.

Lemma qmax_ge (a b : Q) : Qle_bool a (qmax a b) = true /\ Qle_bool b (qmax a b) = true.
Proof.
  unfold qmax. destruct (Qle_bool a b) eqn:E.
  - split; [exact E|apply Qle_bool_refl].
  - split; [apply Qle_bool_refl|].
    apply Qle_bool_iff. apply Qlt_le_weak. apply Qnot_le_lt.
    intros H. apply Qle_bool_iff in H. congruence.
Qed.

Lemma Qle_bool_trans (a b c : Q) :
  Qle_bool a b = true -> Qle_bool b c = true -> Qle_bool a c = true.
Proof. rewrite !Qle_bool_iff. apply Qle_trans. Qed.

Lemma fold_qmin_le (v : Q) (vs : list Q) (x : Q) :
  In x (v :: vs) -> Qle_bool (fold_right qmin v vs) x = true.
Proof.
  induction vs as [|w r IH]; simpl.
  - intros [<-|[]]. apply Qle_bool_refl.
  - intros [<-|[<-|H]].
    + eapply Qle_bool_trans; [apply qmin_le|]. apply IH. now left.
    + apply qmin_le.
    + eapply Qle_bool_trans; [apply qmin_le|]. apply IH. now right.
Qed.

Lemma fold_qmax_ge (v : Q) (vs : list Q) (x : Q) :
  In x (v :: vs) -> Qle_bool x (fold_right qmax v vs) = true.
Proof.
  induction vs as [|w r IH]; simpl.
  - intros [<-|[]]. apply Qle_bool_refl.
  - intros [<-|[<-|H]].
    + eapply Qle_bool_trans; [|apply qmax_ge]. apply IH. now left.
    + apply qmax_ge.
    + eapply Qle_bool_trans; [|apply qmax_ge]. apply IH. now right.
Qed.

(** Every present value of a column lies between its minimum and its
    maximum. *)
Lemma between_own_bounds (vs : list Q) :
  map (between (Pd.min (map Some vs)) (Pd.max (map Some vs))) (map Some vs)
  = repeat true (length (map Some vs)).
Proof.
  unfold Pd.min, Pd.max. rewrite dropna_map_Some, length_map, map_map.
  destruct vs as [|v r]; [reflexivity|].
  assert (forall x, In x (v :: r) ->
            between (Some (fold_right qmin v r)) (Some (fold_right qmax v r)) (Some x)
            = true) as H.
  { intros x Hx. simpl. now rewrite fold_qmin_le, fold_qmax_ge. }
  now apply map_all_true.
Qed.

Lemma band_all (n : nat) : band (repeat true n) (repeat true n) = repeat true n.
Proof. unfold band. induction n as [|n IH]; simpl; [reflexivity|now rewrite IH]. Qed.

Lemma aligned_size (df : DataFrame) (c : string) (s : Series) :
  aligned df -> get c df = Some s -> size s = len df.
Proof.
  intros A G. apply get_In in G. unfold aligned in A.
  rewrite Forall_forall in A. exact (A _ G).
Qed.

Lemma complete_cells (s : Series) :
  complete s ->
  match s with
  | NumCol xs => xs = map Some (dropna xs)
  | ObjCol xs => xs = map Some (dropna xs)
  end.
Proof. destruct s as [xs|xs]; unfold complete, na_count; simpl; apply na_free_cells. Qed.

(** [df[c].isin(opts)] holds in every row of a complete column. *)
Lemma isin_sel_options (s : Series) :
  complete s ->
  isin_sel match s with
           | ObjCol xs => Texts (Py.sorted String.leb (unique String.eqb (dropna xs)))
           | NumCol xs => Numbers (Py.sorted Qle_bool (unique Qeq_bool (dropna xs)))
           end s
  = repeat true (size s).
Proof.
  intros C. apply complete_cells in C. destruct s as [xs|xs]; simpl; rewrite C.
  - apply (isin_own_values Qeq_bool Qle_bool Qeq_bool_refl').
  - apply (isin_own_values String.eqb String.leb String.eqb_refl).
Qed.

Lemma opts_done (c : string) (df : DataFrame) (o : labels) :
  opts c df = Done o ->
  exists s, series c df = Done s /\
    o = match s with
        | ObjCol xs => Texts (Py.sorted String.leb (unique String.eqb (dropna xs)))
        | NumCol xs => Numbers (Py.sorted Qle_bool (unique Qeq_bool (dropna xs)))
        end.
Proof.
  unfold opts. intros H. apply and_then_done in H. destruct H as [s [Hs H]].
  inversion H. eauto.
Qed.

Lemma floats_done (c : string) (df : DataFrame) (xs : list (option Q)) :
  floats c df = Done xs <-> series c df = Done (NumCol xs).
Proof.
  unfold floats. destruct (series c df) as [[ys|ys]|e]; simpl; split;
    intros H; inversion H; reflexivity.
Qed.

(** C2, as the code has it: on an aligned table in which none of the six
    filtered columns has a missing cell, filtering with the widgets'
    defaults (every observed value selected, both ranges at [min, max])
    returns the whole table. *)
Theorem C2_defaults_keep_complete_table (df : DataFrame) (spec : FilterSpec) :
  aligned df ->
  (forall c s, In c filter_columns -> get c df = Some s -> complete s) ->
  defaults df = Done spec ->
  dff df spec = Done df.
Proof.
  intros A C H. unfold defaults in H.
  apply and_then_done in H. destruct H as [w_opts [Hw H]].
  apply and_then_done in H. destruct H as [t_opts [Ht H]].
  apply and_then_done in H. destruct H as [tod_opts [Htod H]].
  apply and_then_done in H. destruct H as [v_opts [Hv H]].
  apply and_then_done in H. destruct H as [dist [Hd H]].
  apply and_then_done in H. destruct H as [exp [He H]].
  inversion H. subst spec. clear H.
  apply opts_done in Hw, Ht, Htod, Hv.
  destruct Hw as [w [Sw ->]]. destruct Ht as [t [St ->]].
  destruct Htod as [tod [Stod ->]]. destruct Hv as [v [Sv ->]].
  unfold dff. rewrite Sw, St, Stod, Sv, Hd, He. cbn [and_then].
  cbn [weather_sel traffic_sel tod_sel vehicle_sel dist_range exp_range fst snd].
  apply floats_done in Hd, He.
  assert (forall c s, In c filter_columns -> series c df = Done s ->
                      complete s /\ size s = len df) as K.
  { intros c s Hc Hs. apply series_done in Hs. destruct Hs as [G _].
    split; [now apply (C c)|now apply (aligned_size df c)]. }
  destruct (K "Weather" w) as [Cw Lw]; [cbv [filter_columns In]; tauto|exact Sw|].
  destruct (K "Traffic_Level" t) as [Ct Lt]; [cbv [filter_columns In]; tauto|exact St|].
  destruct (K "Time_of_Day" tod) as [Ctod Ltod]; [cbv [filter_columns In]; tauto|exact Stod|].
  destruct (K "Vehicle_Type" v) as [Cv Lv]; [cbv [filter_columns In]; tauto|exact Sv|].
  destruct (K "Distance_km" (NumCol dist)) as [Cd Ld]; [cbv [filter_columns In]; tauto|exact Hd|].
  destruct (K "Courier_Experience_yrs" (NumCol exp)) as [Ce Le];
    [cbv [filter_columns In]; tauto|exact He|].
  rewrite !isin_sel_options by assumption.
  apply complete_cells in Cd, Ce. rewrite Cd, Ce, !between_own_bounds.
  rewrite <- Cd, <- Ce. simpl in Ld, Le.
  rewrite Lw, Lt, Ltod, Lv, Ld, Le, !band_all.
  f_equal. apply IdempotenceFacts.loc_all.
  eapply Forall_impl; [|exact A]. intros ns E. cbv beta in E. lia.
Qed.

Lemma C2_defaults_keep_complete_table_witness :
  exists spec,
    defaults five_deliveries = Done spec /\
    dff five_deliveries spec = Done five_deliveries.
Proof.
  assert (aligned five_deliveries) as A by (repeat constructor).
  assert (forall c s, In c filter_columns -> get c five_deliveries = Some s -> complete s)
    as C.
  { intros c s Hc. cbv [filter_columns In] in Hc.
    repeat (destruct Hc as [<-|Hc];
            [intros H; inversion H; reflexivity|]). destruct Hc. }
  destruct (defaults five_deliveries) as [spec|e] eqn:E; [|vm_compute in E; discriminate].
  exists spec. split; [reflexivity|].
  exact (C2_defaults_keep_complete_table five_deliveries spec A C E).
Defined.

(** C2 as stated fails.  The table below is what [startup] builds on the
    auto-clean path from a raw file whose weather cells are all empty: the
    mode is empty, so nothing is filled.  Its weather options are then
    empty and [isin] is false in every row: the widgets' defaults filter
    every row away. *)
Lemma C2_defaults_drop_rows_with_missing_cell :
  startup plain (only_raw no_weather_raw) = ([], Returned (no_weather_cleaned, RAW_auto_clean)) /\
  (exists spec,
     defaults no_weather_cleaned = Done spec /\
     weather_sel spec = Numbers [] /\
     dist_range spec = (Some 3%Q, Some 7%Q) /\
     dff no_weather_cleaned spec = Done no_rows) /\
  no_rows <> no_weather_cleaned.
Proof.
  split; [vm_compute; reflexivity|]. split; [|discriminate].
  eexists. split; [vm_compute; reflexivity|].
  split; [reflexivity|]. split; [reflexivity|]. vm_compute. reflexivity.
Qed.

End FilterFacts.

(** ** KPIs and correlation *)

Module SummaryFacts.
Import Pd St Dashboard Notions Samples PdFacts CleanFacts FilterFacts.

Lemma pairs_In (xs ys : list (option Q)) (p : Q * Q) :
  In p (pairs xs ys) -> In (Some (fst p)) xs /\ In (Some (snd p)) ys.
Proof.
  revert ys. induction xs as [|x r IH]; intros [|y r']; simpl; try tauto.
  - destruct x; simpl; tauto.
  - destruct x as [x|]; [destruct y as [y|]|]; simpl.
    + intros [<-|H]; [simpl; auto|]. destruct (IH r' H). auto.
    + intros H. destruct (IH r' H). auto.
    + intros H. destruct (IH r' H). auto.
Qed.

Lemma qlen_cons (v : Q) (vs : list Q) : (qlen (v :: vs) == qlen vs + 1)%Q.
Proof.
  unfold qlen. cbn [length]. rewrite Nat2Z.inj_succ. unfold Z.succ.
  now rewrite inject_Z_plus.
Qed.

Lemma qlen_pos (v : Q) (vs : list Q) : ~ (qlen (v :: vs) == 0)%Q.
Proof.
  unfold qlen, Qeq. simpl. lia.
Qed.

Lemma sum_all_equal (c : Q) (vs : list Q) :
  (forall x, In x vs -> (x == c)%Q) -> (sum vs == qlen vs * c)%Q.
Proof.
  induction vs as [|v r IH]; intros H.
  - unfold sum, qlen. simpl. ring.
  - assert (sum r == qlen r * c)%Q as IH'
      by (apply IH; intros x Hx; apply H; simpl; auto).
    assert (v == c)%Q as Hv by (apply H; simpl; auto).
    change (sum (v :: r)) with (v + sum r)%Q.
    rewrite qlen_cons, IH', Hv. ring.
Qed.

Lemma sum_all_zero (vs : list Q) :
  (forall x, In x vs -> (x == 0)%Q) -> (sum vs == 0)%Q.
Proof.
  intros H. rewrite (sum_all_equal 0%Q vs H). ring.
Qed.

(** The sum of squared deviations of equal values is zero. *)
Lemma deviations_all_equal (c : Q) (vs : list Q) :
  (forall x, In x vs -> (x == c)%Q) ->
  (sum (map (fun x => (x - sum vs / qlen vs) * (x - sum vs / qlen vs))%Q vs) == 0)%Q.
Proof.
  intros H. destruct vs as [|v r]; [reflexivity|].
  assert (sum (v :: r) / qlen (v :: r) == c)%Q as M.
  { rewrite (sum_all_equal c _ H). field. apply qlen_pos. }
  apply sum_all_zero. intros y Hy. apply in_map_iff in Hy.
  destruct Hy as [x [<- Hx]]. rewrite M, (H x Hx). ring.
Qed.

Lemma corr_entry_NaN_l (xs ys : list (option Q)) :
  constant xs -> corr_entry xs ys = None.
Proof.
  intros [c H]. unfold corr_entry.
  destruct (pairs xs ys) as [|p ps] eqn:P; [reflexivity|].
  cbv zeta.
  match goal with |- (if Qeq_bool ?a 0 then _ else _) = _ =>
    assert (a == 0)%Q as Z end.
  { rewrite (deviations_all_equal c); [ring|].
    intros x Hx. apply in_map_iff in Hx. destruct Hx as [q [<- Hq]].
    apply H. rewrite <- P in Hq. now apply (pairs_In xs ys q). }
  apply Qeq_bool_iff in Z. now rewrite Z.
Qed.

Lemma corr_entry_NaN_r (xs ys : list (option Q)) :
  constant ys -> corr_entry xs ys = None.
Proof.
  intros [c H]. unfold corr_entry.
  destruct (pairs xs ys) as [|p ps] eqn:P; [reflexivity|].
  cbv zeta.
  match goal with |- (if Qeq_bool ?a 0 then _ else _) = _ =>
    assert (a == 0)%Q as Z end.
  { rewrite (deviations_all_equal c (map snd (p :: ps))); [ring|].
    intros x Hx. apply in_map_iff in Hx. destruct Hx as [q [<- Hq]].
    apply H. rewrite <- P in Hq. now apply (pairs_In xs ys q). }
  apply Qeq_bool_iff in Z. now rewrite Z.
Qed.

Lemma empty_len (view : DataFrame) : empty view = true -> len view = 0.
Proof.
  unfold empty. destruct view as [|[c s] r]; [reflexivity|]. simpl.
  rewrite orb_false_r. apply Nat.eqb_eq.
Qed.

Lemma page_empty (view : DataFrame) :
  empty view = true ->
  page view = ([SidebarSuccess 0; Warning NoDataAfterFilter], Stopped).
Proof.
  intros E. unfold page. rewrite E, (empty_len view E). reflexivity.
Qed.

Lemma page_shown (view : DataFrame) (d e t : list (option Q)) :
  empty view = false ->
  floats "Distance_km" view = Done d ->
  floats "Courier_Experience_yrs" view = Done e ->
  floats "Delivery_Time_min" view = Done t ->
  page view
  = ([SidebarSuccess (len view);
      Metric "Mean" (mean t); Metric "Median" (median t);
      Metric "p90" (quantile (9 # 10) t); MetricCount (len view);
      Heatmap (map (fun a => map (corr_entry a) [d; e; t]) [d; e; t])],
     Returned tt).
Proof.
  intros E Hd He Ht. unfold page, corr. rewrite E, Hd, He, Ht. reflexivity.
Qed.

(** On a view that is not empty the page shows exactly what [summarize]
    computes. *)
Lemma page_summarize (view : DataFrame) (r : summary) :
  empty view = false ->
  summarize view = Done r ->
  page view
  = ([SidebarSuccess (len view);
      Metric "Mean" (mean_min r); Metric "Median" (median_min r);
      Metric "p90" (p90_min r); MetricCount (count r);
      Heatmap (correlation r)],
     Returned tt).
Proof.
  intros E H. unfold summarize in H.
  apply and_then_done in H. destruct H as [t [Ht H]].
  apply and_then_done in H. destruct H as [m [Hm H]].
  inversion H. subst r. clear H. simpl.
  unfold page. rewrite E, Ht, Hm. reflexivity.
Qed.

Lemma floats_empty (view : DataFrame) (c : string) (xs : list (option Q)) :
  aligned view -> len view = 0 -> floats c view = Done xs -> xs = [].
Proof.
  intros A L H. apply floats_done in H. apply series_done in H. destruct H as [G _].
  pose proof (aligned_size view c _ A G) as S. simpl in S. rewrite L in S.
  now destruct xs.
Qed.

(** C7: the summary computations do not raise on an empty view.  For a
    view without rows whose distance, experience and delivery-time columns
    are float columns, [summarize] returns count 0 and NaN for the mean,
    the median, the p90 and every correlation entry.  On any such view,
    empty or not, it returns a correlation matrix whose entries are NaN
    wherever one of the two columns has zero variance in the view. *)
Theorem C7_summarize_empty_and_constant (view : DataFrame) (d e t : list (option Q)) :
  aligned view ->
  floats "Distance_km" view = Done d ->
  floats "Courier_Experience_yrs" view = Done e ->
  floats "Delivery_Time_min" view = Done t ->
  (len view = 0 ->
   summarize view
   = Done {| mean_min := None; median_min := None; p90_min := None; count := 0;
             correlation := [[None; None; None]; [None; None; None];
                             [None; None; None]] |}) /\
  (exists r,
     summarize view = Done r /\
     count r = len view /\
     correlation r = map (fun a => map (corr_entry a) [d; e; t]) [d; e; t] /\
     forall a b, In a [d; e; t] -> In b [d; e; t] -> constant a ->
       corr_entry a b = None /\ corr_entry b a = None).
Proof.
  intros A Hd He Ht. split.
  - intros L.
    rewrite (floats_empty view _ d A L Hd) in Hd.
    rewrite (floats_empty view _ e A L He) in He.
    rewrite (floats_empty view _ t A L Ht) in Ht.
    unfold summarize, corr. rewrite Hd, He, Ht, L. reflexivity.
  - eexists. split.
    + unfold summarize, corr. rewrite Hd, He, Ht. reflexivity.
    + split; [reflexivity|]. split; [reflexivity|].
      intros a b _ _ K. split; [now apply corr_entry_NaN_l|now apply corr_entry_NaN_r].
Qed.

Lemma C7_summarize_empty_and_constant_witness :
  aligned no_rows /\
  summarize no_rows
  = Done {| mean_min := None; median_min := None; p90_min := None; count := 0;
            correlation := [[None; None; None]; [None; None; None];
                            [None; None; None]] |} /\
  aligned five_deliveries /\
  constant [Some 1%Q; Some 1%Q; Some 1%Q; Some 1%Q; Some 1%Q] /\
  corr_entry [Some 1%Q; Some 1%Q; Some 1%Q; Some 1%Q; Some 1%Q] five_times = None /\
  corr_entry five_times [Some 1%Q; Some 1%Q; Some 1%Q; Some 1%Q; Some 1%Q] = None.
Proof.
  assert (aligned no_rows) as A0 by (repeat constructor).
  assert (aligned five_deliveries) as A5 by (repeat constructor).
  assert (constant [Some 1%Q; Some 1%Q; Some 1%Q; Some 1%Q; Some 1%Q]) as K.
  { exists 1%Q. intros x Hx. simpl in Hx.
    repeat (destruct Hx as [Hx|Hx]; [inversion Hx; reflexivity|]). destruct Hx. }
  split; [exact A0|]. split.
  - exact (proj1 (C7_summarize_empty_and_constant no_rows [] [] [] A0
                    eq_refl eq_refl eq_refl) eq_refl).
  - split; [exact A5|]. split; [exact K|].
    destruct (proj2 (C7_summarize_empty_and_constant five_deliveries
                       [Some 2%Q; Some 4%Q; Some 5%Q; Some 7%Q; Some 12%Q]
                       [Some 1%Q; Some 1%Q; Some 1%Q; Some 1%Q; Some 1%Q]
                       five_times A5 eq_refl eq_refl eq_refl))
      as [r [_ [_ [_ H]]]].
    apply (H [Some 1%Q; Some 1%Q; Some 1%Q; Some 1%Q; Some 1%Q] five_times);
      [simpl; tauto|simpl; tauto|exact K].
Defined.

(** C8: for a view of five records whose delivery times are 30, 45, 45,
    60 and 90 the page shows mean 54, median 45, count 5 and, as p90, the
    linear interpolation between the fourth and fifth order statistics at
    position 0.9 * 4 = 3.6, which is 78. *)
Theorem C8_five_deliveries_kpis (view : DataFrame) :
  aligned view ->
  floats "Delivery_Time_min" view = Done five_times ->
  exists mean_v median_v p90_v rest ending,
    page view
    = ([SidebarSuccess 5;
        Metric "Mean" (Some mean_v); Metric "Median" (Some median_v);
        Metric "p90" (Some p90_v); MetricCount 5] ++ rest, ending) /\
    (mean_v == 54)%Q /\
    (median_v == 45)%Q /\
    (p90_v == 60 + (90 - 60) * (6 # 10))%Q /\
    (p90_v == 78)%Q.
Proof.
  intros A H. assert (len view = 5) as L.
  { apply floats_done in H. apply series_done in H. destruct H as [G _].
    now rewrite <- (aligned_size view _ _ A G). }
  assert (empty view = false) as E.
  { unfold empty. rewrite L. destruct view; [discriminate|reflexivity]. }
  unfold page. rewrite E, L, H.
  destruct (mean five_times) as [m|] eqn:Em; [|discriminate].
  destruct (median five_times) as [md|] eqn:Emd; [|discriminate].
  destruct (quantile (9 # 10) five_times) as [p|] eqn:Ep; [|discriminate].
  vm_compute in Em, Emd, Ep. inversion Em. inversion Emd. inversion Ep.
  unfold bind, emit, lift. cbn [fst snd app].
  destruct (corr view) as [c|e]; cbn [fst snd app];
    do 5 eexists; (split; [reflexivity|]); repeat split; reflexivity.
Qed.

Lemma C8_five_deliveries_kpis_witness :
  aligned five_deliveries /\
  floats "Delivery_Time_min" five_deliveries = Done five_times /\
  exists mean_v median_v p90_v rest ending,
    page five_deliveries
    = ([SidebarSuccess 5;
        Metric "Mean" (Some mean_v); Metric "Median" (Some median_v);
        Metric "p90" (Some p90_v); MetricCount 5] ++ rest, ending) /\
    (mean_v == 54)%Q /\
    (median_v == 45)%Q /\
    (p90_v == 60 + (90 - 60) * (6 # 10))%Q /\
    (p90_v == 78)%Q.
Proof.
  assert (aligned five_deliveries) as A by (repeat constructor).
  assert (floats "Delivery_Time_min" five_deliveries = Done five_times) as H
    by reflexivity.
  split; [exact A|]. split; [exact H|].
  exact (C8_five_deliveries_kpis five_deliveries A H).
Defined.

End SummaryFacts.

(** ** More on the fallback clean: columns, rows and gaps *)

Module CleanShapeFacts.
Import Pd St Dashboard Notions Samples PdFacts CleanFacts NormalizeFacts LoadFacts
       IdempotenceFacts FilterFacts.

Lemma get_fold_assign_other (f : string -> Series -> Series) (cs : list string)
    (df : DataFrame) (c : string) :
  ~ In c cs ->
  get c (fold_left (fun d c' => assign c' (f c') d) cs df) = get c df.
Proof.
  revert df. induction cs as [|c' r IH]; simpl; intros df H; [reflexivity|].
  rewrite IH by tauto. rewrite get_assign.
  destruct (String.eqb c c') eqn:E; [|reflexivity].
  apply String.eqb_eq in E. subst. tauto.
Qed.

Lemma Forall_sizes_assign (P : nat -> Prop) (c : string) (f : Series -> Series)
    (df : DataFrame) :
  (forall s, size (f s) = size s) ->
  Forall (fun ns => P (size (snd ns))) df ->
  Forall (fun ns => P (size (snd ns))) (assign c f df).
Proof.
  intros Hf H. unfold assign. apply Forall_forall. intros ns Hns.
  apply in_map_iff in Hns. destruct Hns as [[c0 s0] [E Hin]].
  rewrite Forall_forall in H. specialize (H _ Hin). simpl in *.
  destruct (String.eqb c0 c); subst ns; simpl; [rewrite Hf|]; exact H.
Qed.

Lemma Forall_sizes_fold_assign (P : nat -> Prop) (f : string -> Series -> Series)
    (cs : list string) (df : DataFrame) :
  (forall c s, size (f c s) = size s) ->
  Forall (fun ns => P (size (snd ns))) df ->
  Forall (fun ns => P (size (snd ns)))
    (fold_left (fun d c => assign c (f c) d) cs df).
Proof.
  intros Hf. revert df. induction cs as [|c r IH]; simpl; intros df H; [exact H|].
  apply IH. apply Forall_sizes_assign; [apply Hf|exact H].
Qed.

Lemma length_fillna_from {A : Type} (xs ys : list (option A)) :
  length (fillna_from xs ys) = length xs.
Proof.
  revert ys. induction xs as [|[x|] r IH]; intros [|y r']; simpl;
    try reflexivity; now rewrite IH.
Qed.

Lemma size_normalized (mp : list (string * string)) (s : Series) :
  size (normalized mp s) = size s.
Proof.
  destruct s as [xs|xs]; simpl; [reflexivity|].
  rewrite length_fillna_from. unfold map_dict, norm. now rewrite !length_map.
Qed.

Lemma length_compress_kept {A : Type} (mask : list bool) (xs : list A) :
  length xs = length mask -> length (compress mask xs) = kept mask.
Proof.
  unfold kept. revert xs. induction mask as [|b m IH]; intros [|x r]; simpl;
    try reflexivity; try discriminate.
  intros H. injection H as H. destruct b; simpl; now rewrite IH.
Qed.

Lemma size_take_kept (m : list bool) (s : Series) :
  size s = length m -> size (take m s) = kept m.
Proof. destruct s as [xs|xs]; simpl; apply length_compress_kept. Qed.

Lemma length_isna (s : Series) : length (isna s) = size s.
Proof. destruct s; simpl; apply length_map. Qed.

Lemma aligned_sizes (n : nat) (df : DataFrame) :
  df <> [] -> Forall (fun ns => size (snd ns) = n) df -> aligned df /\ len df = n.
Proof.
  intros Hne H. destruct df as [|[c s] r]; [congruence|].
  assert (len ((c, s) :: r) = n) as L by (inversion H; assumption).
  split; [|exact L]. unfold aligned. rewrite L. exact H.
Qed.

Section Shape.
Variable to_float : string -> option Q.

Lemma size_to_numeric (s : Series) : size (to_numeric to_float s) = size s.
Proof. destruct s as [xs|xs]; simpl; [reflexivity|apply length_map]. Qed.

(** The fallback clean never adds, removes or reorders a column: the
    labels of its result are the trimmed labels of the raw table.  A
    column that is not one of the seven required ones is left as it was,
    apart from the rows dropped for a missing delivery time. *)
Theorem auto_clean_keeps_columns (raw df : DataFrame) :
  auto_clean to_float raw = Done df ->
  columns df = map Py.strip (columns raw) /\
  (forall c, ~ In c needed ->
     get c df = option_map (take (retained to_float raw)) (get c (rename Py.strip raw))).
Proof.
  intros H. apply auto_clean_done in H. destruct H as [_ [_ ->]].
  split; [apply columns_cleaned|].
  intros c Hc. unfold cleaned, normalized_table.
  rewrite !get_fold_assign_other, get_loc, !get_fold_assign_other;
    try reflexivity;
    intros Hin; apply Hc; cbv [needed In];
    cbv [numeric_columns imputed_numeric_columns categorical_columns maps map fst In]
      in Hin; tauto.
Qed.

Lemma cleaned_aligned (raw : DataFrame) (dt : list (option Q)) :
  aligned raw ->
  get "Delivery_Time_min" (normalized_table to_float raw) = Some (NumCol dt) ->
  aligned (cleaned to_float raw) /\
  length dt = len raw /\
  len (cleaned to_float raw) = length (dropna dt).
Proof.
  intros A G.
  destruct (cleaned_delivery to_float raw dt G) as [RT GD].
  assert (Forall (fun ns => size (snd ns) = len raw) (normalized_table to_float raw)) as S2.
  { unfold normalized_table.
    apply (Forall_sizes_fold_assign (fun n => n = len raw)
             (fun c => normalized (dict_for c))); [intros; apply size_normalized|].
    apply (Forall_sizes_fold_assign (fun n => n = len raw)
             (fun _ => to_numeric to_float)); [intros; apply size_to_numeric|].
    unfold rename. apply Forall_forall. intros ns Hns.
    apply in_map_iff in Hns. destruct Hns as [ns0 [<- Hin]]. simpl.
    unfold aligned in A. rewrite Forall_forall in A. now apply A. }
  assert (length dt = len raw) as Ldt.
  { apply get_In in G. rewrite Forall_forall in S2. exact (S2 _ G). }
  assert (Forall (fun ns => size (snd ns) = length (dropna dt)) (cleaned to_float raw)) as S5.
  { unfold cleaned.
    apply (Forall_sizes_fold_assign (fun n => n = length (dropna dt))
             (fun _ => total fill_mode)); [intros; apply size_total_fill_mode|].
    apply (Forall_sizes_fold_assign (fun n => n = length (dropna dt))
             (fun c => total (fill_median c))); [intros; apply size_total_fill_median|].
    unfold loc. apply Forall_forall. intros ns Hns.
    apply in_map_iff in Hns. destruct Hns as [ns0 [<- Hin]]. simpl.
    rewrite Forall_forall in S2. specialize (S2 _ Hin).
    assert (kept (retained to_float raw) = length (dropna dt)) as K
      by (rewrite RT; apply length_notna).
    rewrite <- K. apply size_take_kept.
    rewrite RT, !length_map. congruence. }
  destruct (aligned_sizes (length (dropna dt)) (cleaned to_float raw)) as [A' L].
  - intros E. rewrite E in GD. discriminate.
  - exact S5.
  - auto.
Qed.

(** The fallback clean keeps the table rectangular, and the number of rows
    it returns is the number of raw rows whose delivery time is a number:
    a row is dropped for its delivery time only, never for another
    cell. *)
Theorem auto_clean_row_count (raw df : DataFrame) :
  aligned raw ->
  auto_clean to_float raw = Done df ->
  aligned df /\
  exists dt,
    get "Delivery_Time_min" (normalized_table to_float raw) = Some (NumCol dt) /\
    length dt = len raw /\
    len df = length (dropna dt).
Proof.
  intros A H. apply auto_clean_done in H. destruct H as [_ [[s G] ->]].
  destruct (delivery_coerced to_float raw s G) as [dt ->].
  destruct (cleaned_aligned raw dt A G) as [A' [L1 L2]].
  split; [exact A'|]. exists dt. auto.
Qed.

End Shape.

Lemma auto_clean_row_count_witness :
  aligned untidy_raw /\
  auto_clean plain untidy_raw = Done untidy_cleaned /\
  aligned untidy_cleaned /\
  exists dt,
    get "Delivery_Time_min" (normalized_table plain untidy_raw) = Some (NumCol dt) /\
    length dt = len untidy_raw /\
    len untidy_cleaned = length (dropna dt).
Proof.
  assert (aligned untidy_raw) as A by (repeat constructor).
  assert (auto_clean plain untidy_raw = Done untidy_cleaned) as H
    by (vm_compute; reflexivity).
  split; [exact A|]. split; [exact H|].
  exact (auto_clean_row_count plain untidy_raw untidy_cleaned A H).
Defined.

Lemma auto_clean_keeps_columns_witness :
  auto_clean plain untidy_raw = Done untidy_cleaned /\
  columns untidy_cleaned = map Py.strip (columns untidy_raw) /\
  (forall c, ~ In c needed ->
     get c untidy_cleaned
     = option_map (take (retained plain untidy_raw)) (get c (rename Py.strip untidy_raw))).
Proof.
  assert (auto_clean plain untidy_raw = Done untidy_cleaned) as H
    by (vm_compute; reflexivity).
  split; [exact H|].
  exact (auto_clean_keeps_columns plain untidy_raw untidy_cleaned H).
Defined.

End CleanShapeFacts.

(** ** More on the sidebar filter *)

Module ViewFacts.
Import Pd St Dashboard Notions Samples PdFacts CleanFacts IdempotenceFacts FilterFacts
       SummaryFacts CleanShapeFacts.

(** *** Masks, row by row *)

Lemma nth_nil_false (i : nat) : nth i (@nil bool) false = false.
Proof. now destruct i. Qed.

Lemma nth_band (m1 m2 : list bool) (i : nat) :
  nth i (band m1 m2) false = nth i m1 false && nth i m2 false.
Proof.
  unfold band. revert m2 i.
  induction m1 as [|b m IH]; intros [|b' m'] [|i]; simpl;
    try reflexivity; try (now rewrite andb_false_r).
  apply IH.
Qed.

Lemma length_band (m1 m2 : list bool) :
  length m1 = length m2 -> length (band m1 m2) = length m1.
Proof.
  intros H. unfold band. rewrite length_map, length_combine, H. apply Nat.min_id.
Qed.

Lemma length_band6 (n : nat) (a1 a2 a3 a4 a5 a6 : list bool) :
  length a1 = n -> length a2 = n -> length a3 = n ->
  length a4 = n -> length a5 = n -> length a6 = n ->
  length (band (band (band (band (band a1 a2) a3) a4) a5) a6) = n.
Proof.
  intros H1 H2 H3 H4 H5 H6.
  assert (length (band a1 a2) = n) as B2 by (rewrite length_band; congruence).
  assert (length (band (band a1 a2) a3) = n) as B3
    by (rewrite length_band; congruence).
  assert (length (band (band (band a1 a2) a3) a4) = n) as B4
    by (rewrite length_band; congruence).
  assert (length (band (band (band (band a1 a2) a3) a4) a5) = n) as B5
    by (rewrite length_band; congruence).
  rewrite length_band; congruence.
Qed.

Lemma compress_map {A B : Type} (f : A -> B) (m : list bool) (xs : list A) :
  map f (compress m xs) = compress m (map f xs).
Proof.
  revert xs. induction m as [|b m IH]; intros [|x r]; simpl; try reflexivity.
  destruct b; simpl; now rewrite IH.
Qed.

(** Where a mask holds, another mask that holds there too is kept as all
    true. *)
Lemma compress_implied (m c : list bool) :
  (forall i, nth i m false = true -> nth i c false = true) ->
  compress m c = repeat true (length (compress m c)).
Proof.
  revert c. induction m as [|b m IH]; intros [|x r] H; simpl; try reflexivity.
  assert (forall i, nth i m false = true -> nth i r false = true) as H'
    by (intros i Hi; exact (H (S i) Hi)).
  destruct b; simpl.
  - rewrite (H 0 eq_refl : x = true). f_equal. now apply IH.
  - now apply IH.
Qed.

Lemma compress_none {A : Type} (m : list bool) (xs : list A) :
  (forall i, nth i m false = false) -> compress m xs = [].
Proof.
  revert xs. induction m as [|b m IH]; intros [|x r] H; simpl; try reflexivity.
  rewrite (H 0 : b = false). apply IH. intros i. exact (H (S i)).
Qed.

Lemma compress_self (m : list bool) : compress m m = repeat true (kept m).
Proof.
  unfold kept. induction m as [|[|] m IH]; simpl; [reflexivity| |exact IH].
  now rewrite IH.
Qed.

Lemma compress_band (m a b : list bool) :
  length a = length b ->
  compress m (band a b) = band (compress m a) (compress m b).
Proof.
  unfold band. revert a b. induction m as [|x m IH]; intros [|y a] [|z b] H;
    simpl in *; try reflexivity; try discriminate.
  injection H as H. destruct x; simpl; now rewrite IH.
Qed.

Lemma nth_map_false {A : Type} (f : A -> bool) (xs : list A) (i : nat) :
  (forall x, f x = false) -> nth i (map f xs) false = false.
Proof.
  intros H. revert i. induction xs as [|x r IH]; intros [|i]; simpl; auto.
Qed.

(** *** The six tests of [dff] on a table and on its rows *)

Lemma isin_sel_take (sel : labels) (m : list bool) (s : Series) :
  isin_sel sel (take m s) = compress m (isin_sel sel s).
Proof. destruct s as [xs|xs], sel as [vs|vs]; simpl; apply compress_map. Qed.

Lemma length_isin_sel (sel : labels) (s : Series) : length (isin_sel sel s) = size s.
Proof. destruct s as [xs|xs], sel as [vs|vs]; simpl; apply length_map. Qed.

Lemma size_take_le (m : list bool) (s : Series) : size (take m s) <= kept m.
Proof. destruct s as [xs|xs]; simpl; apply length_compress. Qed.

Lemma series_loc (c : string) (m : list bool) (df : DataFrame) (s : Series) :
  series c df = Done s -> series c (loc m df) = Done (take m s).
Proof.
  intros H. apply series_done in H. destruct H as [G C]. apply series_done.
  rewrite get_loc, G, count_label_loc. auto.
Qed.

Lemma floats_loc (c : string) (m : list bool) (df : DataFrame) (xs : list (option Q)) :
  floats c df = Done xs -> floats c (loc m df) = Done (compress m xs).
Proof.
  intros H. apply floats_done in H. apply floats_done.
  exact (series_loc c m df (NumCol xs) H).
Qed.

(** What [dff] returns: the rows where its mask holds. *)
Lemma dff_done (df : DataFrame) (spec : FilterSpec) (view : DataFrame) :
  dff df spec = Done view ->
  exists w t tod v dist exp,
    series "Weather" df = Done w /\
    series "Traffic_Level" df = Done t /\
    series "Time_of_Day" df = Done tod /\
    series "Vehicle_Type" df = Done v /\
    floats "Distance_km" df = Done dist /\
    floats "Courier_Experience_yrs" df = Done exp /\
    view = loc
      (band (band (band (band (band
         (isin_sel (weather_sel spec) w)
         (isin_sel (traffic_sel spec) t))
         (isin_sel (tod_sel spec) tod))
         (isin_sel (vehicle_sel spec) v))
         (map (between (fst (dist_range spec)) (snd (dist_range spec))) dist))
         (map (between (fst (exp_range spec)) (snd (exp_range spec))) exp))
      df.
Proof.
  unfold dff. intros H.
  apply and_then_done in H. destruct H as [w [Hw H]].
  apply and_then_done in H. destruct H as [t [Ht H]].
  apply and_then_done in H. destruct H as [tod [Htod H]].
  apply and_then_done in H. destruct H as [v [Hv H]].
  apply and_then_done in H. destruct H as [dist [Hd H]].
  apply and_then_done in H. destruct H as [exp [He H]].
  inversion H. exists w, t, tod, v, dist, exp. repeat split; assumption.
Qed.

Ltac split_mask H :=
  rewrite ?nth_band in H;
  repeat match type of H with
         | _ && _ = true => apply andb_true_iff in H; destruct H as [H ?]
         end.

(** Every row of a filtered view passes each of the six tests: its four
    categorical cells are among the selected values and its distance and
    courier experience lie in their ranges.  A missing cell passes no
    test, so a filtered view has no missing cell in the six columns. *)
Theorem view_rows_pass (df : DataFrame) (spec : FilterSpec) (view : DataFrame) :
  dff df spec = Done view ->
  (forall c sel s,
     In (c, sel) [("Weather", weather_sel spec); ("Traffic_Level", traffic_sel spec);
                  ("Time_of_Day", tod_sel spec); ("Vehicle_Type", vehicle_sel spec)] ->
     get c view = Some s ->
     isin_sel sel s = repeat true (size s) /\ complete s) /\
  (forall c range xs,
     In (c, range) [("Distance_km", dist_range spec);
                    ("Courier_Experience_yrs", exp_range spec)] ->
     get c view = Some (NumCol xs) ->
     map (between (fst range) (snd range)) xs = repeat true (length xs) /\
     complete (NumCol xs)).
Proof.
  intros H. apply dff_done in H.
  destruct H as [w [t [tod [v [dist [exp [Hw [Ht [Htod [Hv [Hd [He ->]]]]]]]]]]]].
  apply floats_done in Hd, He.
  apply series_done in Hw, Ht, Htod, Hv, Hd, He.
  destruct Hw as [Gw _], Ht as [Gt _], Htod as [Gtod _], Hv as [Gv _],
           Hd as [Gd _], He as [Ge _].
  set (mask := band _ _).
  assert (forall sel s0, (forall i, nth i mask false = true ->
                                    nth i (isin_sel sel s0) false = true) ->
            isin_sel sel (take mask s0) = repeat true (size (take mask s0)) /\
            complete (take mask s0)) as KC.
  { intros sel s0 Hi.
    assert (isin_sel sel (take mask s0) = repeat true (size (take mask s0))) as E.
    { rewrite <- (length_isin_sel sel (take mask s0)), isin_sel_take.
      now apply compress_implied. }
    split; [exact E|]. unfold complete, na_count.
    destruct s0 as [xs|xs], sel as [vs|vs]; simpl in *;
      apply na_free_cells;
      (induction (compress mask xs) as [|[x|] r IH]; simpl in *;
       [reflexivity|injection E as _ E; now rewrite <- IH|discriminate]). }
  assert (forall lo hi xs0, (forall i, nth i mask false = true ->
                                       nth i (map (between lo hi) xs0) false = true) ->
            map (between lo hi) (compress mask xs0)
            = repeat true (length (compress mask xs0)) /\
            complete (NumCol (compress mask xs0))) as KN.
  { intros lo hi xs0 Hi.
    assert (map (between lo hi) (compress mask xs0)
            = repeat true (length (compress mask xs0))) as E.
    { rewrite <- (length_map (between lo hi) (compress mask xs0)), compress_map.
      now apply compress_implied. }
    split; [exact E|]. unfold complete, na_count. simpl. apply na_free_cells.
    induction (compress mask xs0) as [|[x|] r IH]; simpl in *;
      [reflexivity|injection E as _ E; now rewrite <- IH|].
    destruct lo, hi; discriminate. }
  split.
  - intros c sel s Hin G. rewrite get_loc in G. cbv [In] in Hin.
    destruct Hin as [E|[E|[E|[E|[]]]]]; inversion E; subst c sel;
      match goal with
      | G0 : get ?c df = Some _ |- _ =>
          match type of G with context [get c df] => rewrite G0 in G end
      end; inversion G; apply KC; intros i Hi; unfold mask in Hi;
      split_mask Hi; assumption.
  - intros c range xs Hin G. rewrite get_loc in G. cbv [In] in Hin.
    destruct Hin as [E|[E|[]]]; inversion E; subst c range;
      match goal with
      | G0 : get ?c df = Some _ |- _ =>
          match type of G with context [get c df] => rewrite G0 in G end
      end; inversion G; apply KN; intros i Hi; unfold mask in Hi;
      split_mask Hi; assumption.
Qed.

Lemma view_rows_pass_witness :
  dff five_deliveries fair_and_near = Done fair_and_near_view /\
  (forall c sel s,
     In (c, sel) [("Weather", weather_sel fair_and_near);
                  ("Traffic_Level", traffic_sel fair_and_near);
                  ("Time_of_Day", tod_sel fair_and_near);
                  ("Vehicle_Type", vehicle_sel fair_and_near)] ->
     get c fair_and_near_view = Some s ->
     isin_sel sel s = repeat true (size s) /\ complete s) /\
  (forall c range xs,
     In (c, range) [("Distance_km", dist_range fair_and_near);
                    ("Courier_Experience_yrs", exp_range fair_and_near)] ->
     get c fair_and_near_view = Some (NumCol xs) ->
     map (between (fst range) (snd range)) xs = repeat true (length xs) /\
     complete (NumCol xs)).
Proof.
  assert (dff five_deliveries fair_and_near = Done fair_and_near_view) as H
    by reflexivity.
  split; [exact H|].
  exact (view_rows_pass five_deliveries fair_and_near fair_and_near_view H).
Defined.

(** Filtering a filtered view again with the same selections and ranges
    returns it unchanged. *)
Theorem dff_idempotent (df : DataFrame) (spec : FilterSpec) (view : DataFrame) :
  aligned df ->
  dff df spec = Done view ->
  dff view spec = Done view.
Proof.
  intros A H. apply dff_done in H.
  destruct H as [w [t [tod [v [dist [exp [Hw [Ht [Htod [Hv [Hd [He E]]]]]]]]]]]].
  set (mask := band _ _) in E. subst view.
  unfold dff.
  rewrite (series_loc _ mask df _ Hw), (series_loc _ mask df _ Ht),
          (series_loc _ mask df _ Htod), (series_loc _ mask df _ Hv),
          (floats_loc _ mask df _ Hd), (floats_loc _ mask df _ He).
  cbn [and_then]. rewrite !isin_sel_take, !compress_map.
  apply floats_done in Hd, He.
  assert (forall c s, series c df = Done s -> size s = len df) as L.
  { intros c s Hs. apply series_done in Hs. destruct Hs as [G _].
    now apply (aligned_size df c). }
  pose proof (L _ _ Hw) as Lw. pose proof (L _ _ Ht) as Lt.
  pose proof (L _ _ Htod) as Ltod. pose proof (L _ _ Hv) as Lv.
  pose proof (L _ _ Hd) as Ld. pose proof (L _ _ He) as Le. simpl in Ld, Le.
  unfold mask.
  set (a1 := isin_sel (weather_sel spec) w).
  set (a2 := isin_sel (traffic_sel spec) t).
  set (a3 := isin_sel (tod_sel spec) tod).
  set (a4 := isin_sel (vehicle_sel spec) v).
  set (a5 := map (between (fst (dist_range spec)) (snd (dist_range spec))) dist).
  set (a6 := map (between (fst (exp_range spec)) (snd (exp_range spec))) exp).
  assert (length a1 = len df) as H1 by (unfold a1; now rewrite length_isin_sel).
  assert (length a2 = len df) as H2 by (unfold a2; now rewrite length_isin_sel).
  assert (length a3 = len df) as H3 by (unfold a3; now rewrite length_isin_sel).
  assert (length a4 = len df) as H4 by (unfold a4; now rewrite length_isin_sel).
  assert (length a5 = len df) as H5 by (unfold a5; now rewrite length_map).
  assert (length a6 = len df) as H6 by (unfold a6; now rewrite length_map).
  assert (length (band a1 a2) = len df) as B2
    by (rewrite length_band; congruence).
  assert (length (band (band a1 a2) a3) = len df) as B3
    by (rewrite length_band; congruence).
  assert (length (band (band (band a1 a2) a3) a4) = len df) as B4
    by (rewrite length_band; congruence).
  assert (length (band (band (band (band a1 a2) a3) a4) a5) = len df) as B5
    by (rewrite length_band; congruence).
  set (m := band (band (band (band (band a1 a2) a3) a4) a5) a6).
  rewrite <- (compress_band m a1 a2) by congruence.
  rewrite <- (compress_band m (band a1 a2) a3) by congruence.
  rewrite <- (compress_band m (band (band a1 a2) a3) a4) by congruence.
  rewrite <- (compress_band m (band (band (band a1 a2) a3) a4) a5) by congruence.
  rewrite <- (compress_band m (band (band (band (band a1 a2) a3) a4) a5) a6)
    by congruence.
  fold m. rewrite compress_self. f_equal. apply loc_all.
  apply Forall_size_loc.
Qed.

Lemma dff_idempotent_witness :
  aligned five_deliveries /\
  dff five_deliveries fair_and_near = Done fair_and_near_view /\
  dff fair_and_near_view fair_and_near = Done fair_and_near_view.
Proof.
  assert (aligned five_deliveries) as A by (repeat constructor).
  assert (dff five_deliveries fair_and_near = Done fair_and_near_view) as H
    by reflexivity.
  split; [exact A|]. split; [exact H|].
  exact (dff_idempotent five_deliveries fair_and_near fair_and_near_view A H).
Defined.

Lemma isin_sel_none (sel : labels) (s : Series) (i : nat) :
  none_selected sel -> nth i (isin_sel sel s) false = false.
Proof.
  intros [->| ->]; destruct s as [xs|xs]; simpl; apply nth_map_false;
    intros [x|]; reflexivity.
Qed.

(** An empty selection in any of the four multiselects filters every row
    away: the page then shows "Rows: 0" and the warning, and halts. *)
Theorem dff_none_selected (df : DataFrame) (spec : FilterSpec) (view : DataFrame) :
  dff df spec = Done view ->
  none_selected (weather_sel spec) \/ none_selected (traffic_sel spec) \/
  none_selected (tod_sel spec) \/ none_selected (vehicle_sel spec) ->
  Forall (fun ns => size (snd ns) = 0) view /\
  page view = ([SidebarSuccess 0; Warning NoDataAfterFilter], Stopped).
Proof.
  intros H N. apply dff_done in H.
  destruct H as [w [t [tod [v [dist [exp [_ [_ [_ [_ [_ [_ ->]]]]]]]]]]]].
  set (mask := band _ _).
  assert (forall i, nth i mask false = false) as Z.
  { intros i. unfold mask. rewrite !nth_band.
    destruct N as [N|[N|[N|N]]];
      rewrite (isin_sel_none _ _ i N); now rewrite ?andb_false_r. }
  assert (Forall (fun ns => size (snd ns) = 0) (loc mask df)) as F.
  { unfold loc. apply Forall_forall. intros ns Hns.
    apply in_map_iff in Hns. destruct Hns as [[c s] [<- _]]. simpl.
    destruct s as [xs|xs]; simpl; now rewrite compress_none. }
  split; [exact F|]. apply page_empty. unfold empty.
  destruct (loc mask df) as [|[c s] r]; [reflexivity|].
  inversion F as [|? ? E _]. simpl in *. now rewrite E.
Qed.

Lemma dff_none_selected_witness :
  dff five_deliveries nothing_selected = Done (loc (repeat false 5) five_deliveries) /\
  (none_selected (weather_sel nothing_selected) \/
   none_selected (traffic_sel nothing_selected) \/
   none_selected (tod_sel nothing_selected) \/
   none_selected (vehicle_sel nothing_selected)) /\
  Forall (fun ns => size (snd ns) = 0) (loc (repeat false 5) five_deliveries) /\
  page (loc (repeat false 5) five_deliveries)
  = ([SidebarSuccess 0; Warning NoDataAfterFilter], Stopped).
Proof.
  assert (dff five_deliveries nothing_selected
          = Done (loc (repeat false 5) five_deliveries)) as H by reflexivity.
  assert (none_selected (weather_sel nothing_selected) \/
          none_selected (traffic_sel nothing_selected) \/
          none_selected (tod_sel nothing_selected) \/
          none_selected (vehicle_sel nothing_selected)) as N
    by (left; left; reflexivity).
  split; [exact H|]. split; [exact N|].
  exact (dff_none_selected five_deliveries nothing_selected _ H N).
Defined.

(** *** The widgets' defaults *)

Section Present.
Context {A : Type} (eqb leb : A -> A -> bool).
Hypothesis eqb_refl : forall a, eqb a a = true.

Lemma isin_own_values_present (xs : list (option A)) :
  map (isin eqb (Py.sorted leb (unique eqb (dropna xs)))) xs
  = map negb (map is_none xs).
Proof.
  rewrite map_map. apply map_ext_in. intros [a|] Ha; [|reflexivity].
  simpl. rewrite PyFacts.existsb_sorted.
  apply In_dropna in Ha.
  destruct (unique_from_covers eqb leb eqb_refl [] (dropna xs) a Ha) as [H|H];
    [discriminate|exact H].
Qed.
End Present.

Lemma between_own_bounds_present (xs : list (option Q)) :
  map (between (Pd.min xs) (Pd.max xs)) xs = map negb (map is_none xs).
Proof.
  rewrite map_map. apply map_ext_in. intros [a|] Ha.
  - apply In_dropna in Ha. unfold Pd.min, Pd.max.
    destruct (dropna xs) as [|v r]; [destruct Ha|].
    simpl. now rewrite fold_qmin_le, fold_qmax_ge.
  - unfold between. now destruct (Pd.min xs), (Pd.max xs).
Qed.

Lemma dff_at_defaults (df : DataFrame) (spec : FilterSpec) :
  defaults df = Done spec ->
  dff df spec = Done (loc (complete_rows df) df).
Proof.
  intros H. unfold defaults in H.
  apply and_then_done in H. destruct H as [w_opts [Hw H]].
  apply and_then_done in H. destruct H as [t_opts [Ht H]].
  apply and_then_done in H. destruct H as [tod_opts [Htod H]].
  apply and_then_done in H. destruct H as [v_opts [Hv H]].
  apply and_then_done in H. destruct H as [dist [Hd H]].
  apply and_then_done in H. destruct H as [exp [He H]].
  inversion H. subst spec. clear H.
  apply opts_done in Hw, Ht, Htod, Hv.
  destruct Hw as [w [Sw ->]]. destruct Ht as [t [St ->]].
  destruct Htod as [tod [Stod ->]]. destruct Hv as [v [Sv ->]].
  unfold dff. rewrite Sw, St, Stod, Sv, Hd, He. cbn [and_then].
  cbn [weather_sel traffic_sel tod_sel vehicle_sel dist_range exp_range fst snd].
  apply floats_done in Hd, He.
  assert (forall s,
            isin_sel match s with
                     | ObjCol xs =>
                         Texts (Py.sorted String.leb (unique String.eqb (dropna xs)))
                     | NumCol xs =>
                         Numbers (Py.sorted Qle_bool (unique Qeq_bool (dropna xs)))
                     end s
            = map negb (isna s)) as K.
  { intros [xs|xs]; simpl.
    - apply (isin_own_values_present Qeq_bool Qle_bool Qeq_bool_refl').
    - apply (isin_own_values_present String.eqb String.leb String.eqb_refl). }
  rewrite !K, !between_own_bounds_present.
  apply series_done in Sw, St, Stod, Sv, Hd, He.
  unfold complete_rows, present_in.
  rewrite (proj1 Sw), (proj1 St), (proj1 Stod), (proj1 Sv), (proj1 Hd), (proj1 He).
  reflexivity.
Qed.

(** With the widgets left at their defaults the filter keeps exactly the
    rows that have a value in each of the six filtered columns, and drops
    every row with a missing cell there. *)
Theorem defaults_keep_complete_rows (df : DataFrame) (spec : FilterSpec) :
  defaults df = Done spec ->
  dff df spec = Done (loc (complete_rows df) df).
Proof. exact (dff_at_defaults df spec). Qed.

Lemma defaults_keep_complete_rows_witness :
  exists spec,
    defaults dirty_clean_numeric = Done spec /\
    dff dirty_clean_numeric spec
    = Done (loc (complete_rows dirty_clean_numeric) dirty_clean_numeric) /\
    complete_rows dirty_clean_numeric = [false; true; false].
Proof.
  destruct (defaults dirty_clean_numeric) as [spec|e] eqn:E;
    [|vm_compute in E; discriminate].
  exists spec. split; [reflexivity|].
  split; [exact (defaults_keep_complete_rows dirty_clean_numeric spec E)|reflexivity].
Defined.

End ViewFacts.

(** ** Range endpoints *)

Module EndpointFacts.
Import Pd St Dashboard Notions Samples PdFacts CleanFacts FilterFacts ViewFacts.

Lemma between_endpoints (lo hi x : Q) :
  (lo <= hi)%Q -> (x == lo \/ x == hi)%Q ->
  between (Some lo) (Some hi) (Some x) = true.
Proof.
  intros Hle Hx. simpl. apply andb_true_iff. rewrite !Qle_bool_iff.
  destruct Hx as [E|E]; rewrite E; split; first [apply Qle_refl|exact Hle].
Qed.

Lemma nth_map_at {A : Type} (f : A -> bool) (xs : list A) (i : nat) (a : A) :
  nth_error xs i = Some a -> nth i (map f xs) false = f a.
Proof.
  revert i. induction xs as [|x r IH]; intros [|i]; simpl; try discriminate.
  - intros H. now inversion H.
  - apply IH.
Qed.

(** A row the mask keeps is found in the result after the rows kept before
    it. *)
Lemma compress_at {A : Type} (mask : list bool) (xs : list A) (i : nat) :
  nth i mask false = true ->
  nth_error (compress mask xs) (kept (firstn i mask)) = nth_error xs i.
Proof.
  unfold kept. revert xs i.
  induction mask as [|b m IH]; intros xs [|i]; simpl; try discriminate.
  - intros ->. now destruct xs.
  - intros H. destruct xs as [|x r].
    + cbn [compress]. now rewrite nth_error_nil.
    + destruct b; simpl; now apply IH.
Qed.

Lemma same_row_loc (df : DataFrame) (mask : list bool) (i : nat) :
  nth i mask false = true ->
  same_row df i (loc mask df) (kept (firstn i mask)).
Proof.
  intros H c s G. exists (take mask s). split; [now rewrite get_loc, G|].
  destruct s as [xs|xs]; simpl; now rewrite compress_at.
Qed.

(** C5: the two numeric tests of the filter are inclusive at both ends.
    Take a record (row [i]) that passes the four categorical tests, and a
    range [lo, hi] with [lo <= hi] on one of the two numeric dimensions.
    When the record's value on that dimension is exactly [lo] or exactly
    [hi] (and it passes the other numeric test), the filter keeps it: the
    mask of [dff] holds in row [i] and the record is a row of the view. *)
Theorem C5_endpoint_record_kept (df : DataFrame) (spec : FilterSpec)
    (w t tod v : Series) (dist exp : list (option Q)) (i : nat) (lo hi x : Q) :
  series "Weather" df = Done w ->
  series "Traffic_Level" df = Done t ->
  series "Time_of_Day" df = Done tod ->
  series "Vehicle_Type" df = Done v ->
  floats "Distance_km" df = Done dist ->
  floats "Courier_Experience_yrs" df = Done exp ->
  nth i (isin_sel (weather_sel spec) w) false = true ->
  nth i (isin_sel (traffic_sel spec) t) false = true ->
  nth i (isin_sel (tod_sel spec) tod) false = true ->
  nth i (isin_sel (vehicle_sel spec) v) false = true ->
  (lo <= hi)%Q ->
  (x == lo \/ x == hi)%Q ->
  (dist_range spec = (Some lo, Some hi) /\
   nth_error dist i = Some (Some x) /\
   nth i (map (between (fst (exp_range spec)) (snd (exp_range spec))) exp) false = true) \/
  (exp_range spec = (Some lo, Some hi) /\
   nth_error exp i = Some (Some x) /\
   nth i (map (between (fst (dist_range spec)) (snd (dist_range spec))) dist) false = true) ->
  exists mask,
    dff df spec = Done (loc mask df) /\
    nth i mask false = true /\
    same_row df i (loc mask df) (kept (firstn i mask)).
Proof.
  intros Hw Ht Htod Hv Hd He Pw Pt Ptod Pv Hle Hx Hn.
  unfold dff. rewrite Hw, Ht, Htod, Hv, Hd, He. cbn [and_then].
  eexists. split; [reflexivity|].
  match goal with |- nth i ?m false = true /\ _ =>
    assert (nth i m false = true) as M end.
  { rewrite !nth_band, Pw, Pt, Ptod, Pv. cbn [andb].
    destruct Hn as [[R [N P]]|[R [N P]]]; rewrite R in *; cbn [fst snd] in *.
    - rewrite P, (nth_map_at _ dist i (Some x) N).
      now rewrite (between_endpoints lo hi x Hle Hx).
    - rewrite P, (nth_map_at _ exp i (Some x) N).
      now rewrite (between_endpoints lo hi x Hle Hx). }
  split; [exact M|]. now apply same_row_loc.
Qed.

Lemma C5_endpoint_record_kept_witness :
  (2 <= 5)%Q /\ (5 == 2 \/ 5 == 5)%Q /\
  dist_range fair_and_near = (Some 2%Q, Some 5%Q) /\
  floats "Distance_km" five_deliveries
  = Done [Some 2%Q; Some 4%Q; Some 5%Q; Some 7%Q; Some 12%Q] /\
  exists mask,
    dff five_deliveries fair_and_near = Done (loc mask five_deliveries) /\
    nth 2 mask false = true /\
    same_row five_deliveries 2 (loc mask five_deliveries) (kept (firstn 2 mask)).
Proof.
  assert (2 <= 5)%Q as H1 by (unfold Qle; simpl; lia).
  assert (5 == 2 \/ 5 == 5)%Q as H2 by (right; reflexivity).
  split; [exact H1|]. split; [exact H2|]. split; [reflexivity|]. split; [reflexivity|].
  exact (C5_endpoint_record_kept five_deliveries fair_and_near
           (ObjCol [Some "Sunny"; Some "Rainy"; Some "Sunny"; Some "Foggy"; Some "Snowy"])
           (ObjCol [Some "Low"; Some "Low"; Some "Medium"; Some "High"; Some "High"])
           (ObjCol [Some "Night"; Some "Morning"; Some "Evening"; Some "Night"; Some "Night"])
           (ObjCol [Some "Car"; Some "Bike"; Some "Bike"; Some "Scooter"; Some "Car"])
           [Some 2%Q; Some 4%Q; Some 5%Q; Some 7%Q; Some 12%Q]
           [Some 1%Q; Some 1%Q; Some 1%Q; Some 1%Q; Some 1%Q]
           2 2%Q 5%Q 5%Q
           eq_refl eq_refl eq_refl eq_refl eq_refl eq_refl
           eq_refl eq_refl eq_refl eq_refl H1 H2
           (or_introl (conj eq_refl (conj eq_refl eq_refl)))).
Defined.

End EndpointFacts.

(** ** Colour palettes *)

Module PaletteFacts.
Import Pd St Dashboard Notions.

Lemma dict_get_absent {V : Type} (k : string) (d : list (string * V)) :
  ~ In k (map fst d) -> Py.dict_get k d = None.
Proof.
  induction d as [|[k' v] r IH]; simpl; [reflexivity|].
  intros H. destruct (String.eqb k k') eqn:E.
  - apply String.eqb_eq in E. subst. tauto.
  - apply IH. tauto.
Qed.

(** [palette_for] answers for the four categorical columns and raises
    [KeyError] for every other name.  The colours of a column are keyed by
    exactly the canonical labels that [maps] gives that column, in the
    same order: every label the normalization can produce has a colour, and
    no colour is keyed by anything else. *)
Theorem palette_for_canonical_labels :
  (forall c, In c categorical_columns ->
     exists palette, palette_for c = Done palette /\
                     map fst palette = canonical (dict_for c)) /\
  (forall c, ~ In c categorical_columns -> palette_for c = Raised (KeyError c)).
Proof.
  split.
  - intros c H. cbv [categorical_columns In] in H.
    repeat (destruct H as [<-|H]; [eexists; split; reflexivity|]). destruct H.
  - intros c H. unfold palette_for. now rewrite dict_get_absent.
Qed.

Lemma palette_for_canonical_labels_witness :
  (exists palette, palette_for "Weather" = Done palette /\
                   map fst palette = canonical (dict_for "Weather")) /\
  palette_for "Distance_km" = Raised (KeyError "Distance_km").
Proof.
  split.
  - apply (proj1 palette_for_canonical_labels). simpl. tauto.
  - apply (proj2 palette_for_canonical_labels). simpl. intros H.
    repeat (destruct H as [H|H]; [discriminate|]). exact H.
Defined.

End PaletteFacts.

(** ** Clean tables pass through *)

Module TidyFacts.
Import Pd St Dashboard Notions Samples PdFacts CleanFacts NormalizeFacts LoadFacts
       IdempotenceFacts FilterFacts.

Lemma canonical_fixed (c label : string) :
  In c categorical_columns ->
  In label (canonical (dict_for c)) ->
  norm_cell (dict_for c) (Some label) = Some label.
Proof.
  intros Hc Hl. cbv [categorical_columns In] in Hc.
  repeat (destruct Hc as [<-|Hc];
          [cbv [canonical dict_for maps Py.dict_get String.eqb Ascii.eqb Bool.eqb
                  map snd In] in Hl;
           repeat (destruct Hl as [<-|Hl]; [reflexivity|]); destruct Hl|]).
  destruct Hc.
Qed.

Lemma aligned_sizes_le (df : DataFrame) :
  aligned df -> Forall (fun ns => size (snd ns) <= len df) df.
Proof.
  intros A. eapply Forall_impl; [|exact A]. intros ns E. cbv beta in E. lia.
Qed.

Section Tidy.
Variable to_float : string -> option Q.

(** The fallback clean returns a table that needs no cleaning as it is. *)
Theorem auto_clean_tidy_unchanged (df : DataFrame) :
  tidy df -> auto_clean to_float df = Done df.
Proof.
  intros [A [NS [C [[vs GD] [HN HC]]]]].
  assert (rename Py.strip df = df) as R by now apply rename_same.
  rewrite Forall_forall in C.
  assert (normalized_table to_float df = df) as N.
  { unfold normalized_table. rewrite R.
    rewrite (fold_assign_same (fun _ => to_numeric to_float)).
    - apply (fold_assign_same (fun c => normalized (dict_for c))).
      + intros c Hc. apply C. cbn [map fst maps In] in Hc. cbv [needed In]. tauto.
      + intros c s Hc G. change (In c categorical_columns) in Hc.
        destruct (HC c s Hc G) as [ls [-> F]]. apply normalized_fixed.
        apply Forall_forall. intros x Hx. apply in_map_iff in Hx.
        destruct Hx as [l [<- Hl]]. rewrite Forall_forall in F.
        apply canonical_fixed; auto.
    - intros c Hc. apply C. cbv [numeric_columns In] in Hc. cbv [needed In]. tauto.
    - intros c s Hc G. cbv [numeric_columns In] in Hc.
      destruct Hc as [<-|[<-|[<-|[]]]].
      + destruct (HN "Distance_km" s) as [xs ->];
          [cbv [imputed_numeric_columns In]; tauto|exact G|reflexivity].
      + destruct (HN "Courier_Experience_yrs" s) as [xs ->];
          [cbv [imputed_numeric_columns In]; tauto|exact G|reflexivity].
      + rewrite GD in G. inversion G. reflexivity. }
  assert (retained to_float df = repeat true (len df)) as RT.
  { unfold retained. rewrite N, GD. simpl. rewrite notna_present. f_equal.
    pose proof (aligned_size df _ _ A GD) as L. simpl in L.
    now rewrite length_map in L. }
  assert (cleaned to_float df = df) as CL.
  { unfold cleaned. rewrite N, RT, (loc_all _ df (aligned_sizes_le df A)).
    rewrite (fold_assign_same (fun c => total (fill_median c))).
    - apply (fold_assign_same (fun _ => total fill_mode)).
      + intros c Hc. apply C. cbv [categorical_columns In] in Hc. cbv [needed In]. tauto.
      + intros c s Hc G. destruct (HC c s Hc G) as [ls [-> _]].
        rewrite total_fill_mode_text. now rewrite fillna_present.
    - intros c Hc. apply C. cbv [imputed_numeric_columns In] in Hc. cbv [needed In]. tauto.
    - intros c s Hc G. destruct (HN c s Hc G) as [xs ->].
      rewrite total_fill_median. now rewrite fillna_present. }
  rewrite <- CL at 2. apply auto_clean_run.
  - rewrite R. apply Forall_forall. exact C.
  - rewrite N. eauto.
Qed.

End Tidy.

Lemma auto_clean_tidy_unchanged_witness :
  tidy five_deliveries /\ auto_clean plain five_deliveries = Done five_deliveries.
Proof.
  assert (tidy five_deliveries) as T.
  { split; [repeat constructor|]. split; [repeat constructor|].
    split; [repeat (apply Forall_cons; [vm_compute; lia|]); apply Forall_nil|].
    split; [eexists (dropna five_times); reflexivity|]. split.
    - intros c s Hc. cbv [imputed_numeric_columns In] in Hc.
      repeat (destruct Hc as [<-|Hc];
              [intros G; inversion G;
               match goal with |- exists vs, NumCol ?xs = _ => exists (dropna xs) end;
               reflexivity|]). destruct Hc.
    - intros c s Hc. cbv [categorical_columns In] in Hc.
      repeat (destruct Hc as [<-|Hc];
              [intros G; inversion G;
               match goal with |- exists ls, ObjCol ?xs = _ /\ _ => exists (dropna xs) end;
               split; [reflexivity|];
               repeat (apply Forall_cons; [simpl; tauto|]); apply Forall_nil|]).
      destruct Hc. }
  split; [exact T|]. exact (auto_clean_tidy_unchanged plain five_deliveries T).
Defined.

End TidyFacts.
